(** * draw_triangle.cc: transform library, model state, render loop, driver

    A shallow embedding of [src/draw_triangle.cc] and the properties of
    its transform pipeline and of its driver's control flow.

    The program computes with [GLfloat] (IEEE binary32) and, wherever a
    [double] literal or a [<cmath>] function takes part, with [double]
    (IEEE binary64).  The embedding is written once over an arithmetic
    interface that keeps the two types and the conversions between them
    apart, and is then read in two arithmetics:

    - [Exact]: real numbers extended with one non-finite value; a division
      by zero (and every operation on a non-finite operand) is non-finite,
      nothing is rounded and nothing overflows;
    - [IEEE]: binary32 and binary64 with round-to-nearest-even, as specified
      by the standard library's [SpecFloat]; the functions of [<cmath>]
      are read as correctly rounded ([Libm]).

    The closed forms of the transform library are proved in [Exact]; the
    values that the program computes are those of [IEEE], and they differ
    by rounding and, at the ends of the range, by overflow. *)

From Stdlib Require Import ZArith QArith Qreals Reals Lra Lia List String Bool.
From Stdlib Require Import Floats.SpecFloat.
From Stdlib Require Import RNsatz.
Import ListNotations.

Set Implicit Arguments.

(** ** Arithmetic of the program *)

Declare Scope cxx_scope.
Delimit Scope cxx_scope with cxx.

(** The operations of C++ on [float] and [double] that the source uses.
    Literals are given by their exact decimal value. *)
Class Arith := {
  GLfloat : Type;
  double : Type;
  (* implicit conversions *)
  to_double : GLfloat -> double;          (* float -> double promotion *)
  to_float : double -> GLfloat;           (* double -> float narrowing *)
  int_to_float : Z -> GLfloat;            (* int -> float *)
  (* literals: 1.0f and 1.0 *)
  flit : Q -> GLfloat;
  dlit : Q -> double;
  (* float arithmetic *)
  fadd : GLfloat -> GLfloat -> GLfloat;
  fsub : GLfloat -> GLfloat -> GLfloat;
  fmul : GLfloat -> GLfloat -> GLfloat;
  fdiv : GLfloat -> GLfloat -> GLfloat;
  fneg : GLfloat -> GLfloat;
  (* double arithmetic *)
  dadd : double -> double -> double;
  dsub : double -> double -> double;
  dmul : double -> double -> double;
  ddiv : double -> double -> double;
  dneg : double -> double
}.

(** The functions of [<cmath>] that the source and Eigen call: the global
    [sin] and [tan] at [double], and [std::sin], [std::cos] at [float]
    (Eigen's [AngleAxisf]). *)
Class Cmath (A : Arith) := {
  sin : double -> double;
  tan : double -> double;
  sinf : GLfloat -> GLfloat;
  cosf : GLfloat -> GLfloat
}.

Infix "+f" := fadd (at level 50, left associativity) : cxx_scope.
Infix "-f" := fsub (at level 50, left associativity) : cxx_scope.
Infix "*f" := fmul (at level 40, left associativity) : cxx_scope.
Infix "/f" := fdiv (at level 40, left associativity) : cxx_scope.
Infix "+d" := dadd (at level 50, left associativity) : cxx_scope.
Infix "-d" := dsub (at level 50, left associativity) : cxx_scope.
Infix "*d" := dmul (at level 40, left associativity) : cxx_scope.
Infix "/d" := ddiv (at level 40, left associativity) : cxx_scope.

Local Open Scope Z_scope.
Local Open Scope cxx_scope.

(** ** Eigen: fixed-size vectors and matrices *)

Module Eigen.

(** Coefficient indices of a 3-vector and of a 4-vector.  Every index in
    the source is a literal within range. *)
Inductive Index3 := X | Y | Z3.
Inductive Index4 := I0 | I1 | I2 | I3.

Record Vector3 (T : Type) := mkV3 { x : T; y : T; z : T }.
Record Vector4 (T : Type) := mkV4 { v0 : T; v1 : T; v2 : T; v3 : T }.

Definition get3 {T} (v : Vector3 T) (i : Index3) : T :=
  match i with X => x v | Y => y v | Z3 => z v end.

Definition get4 {T} (v : Vector4 T) (i : Index4) : T :=
  match i with I0 => v0 v | I1 => v1 v | I2 => v2 v | I3 => v3 v end.

Definition upd3 {T} (v : Vector3 T) (i : Index3) (a : T) : Vector3 T :=
  match i with
  | X => mkV3 a (y v) (z v)
  | Y => mkV3 (x v) a (z v)
  | Z3 => mkV3 (x v) (y v) a
  end.

Definition upd4 {T} (v : Vector4 T) (i : Index4) (a : T) : Vector4 T :=
  match i with
  | I0 => mkV4 a (v1 v) (v2 v) (v3 v)
  | I1 => mkV4 (v0 v) a (v2 v) (v3 v)
  | I2 => mkV4 (v0 v) (v1 v) a (v3 v)
  | I3 => mkV4 (v0 v) (v1 v) (v2 v) a
  end.

(** Matrices are stored by columns, Eigen's default and the order in
    which [data()] hands them to [glUniformMatrix4fv]. *)
Definition Matrix3 (T : Type) := Vector3 (Vector3 T).
Definition Matrix4 (T : Type) := Vector4 (Vector4 T).

(** [m(i, j)]: row [i], column [j]. *)
Definition coeff3 {T} (m : Matrix3 T) (i j : Index3) : T := get3 (get3 m j) i.
Definition coeff {T} (m : Matrix4 T) (i j : Index4) : T := get4 (get4 m j) i.

(** [m(i, j) = a]. *)
Definition set3 {T} (m : Matrix3 T) (i j : Index3) (a : T) : Matrix3 T :=
  upd3 m j (upd3 (get3 m j) i a).
Definition set {T} (m : Matrix4 T) (i j : Index4) (a : T) : Matrix4 T :=
  upd4 m j (upd4 (get4 m j) i a).

Definition col {T} (m : Matrix4 T) (j : Index4) : Vector4 T := get4 m j.
Definition row {T} (m : Matrix4 T) (i : Index4) : Vector4 T :=
  mkV4 (coeff m i I0) (coeff m i I1) (coeff m i I2) (coeff m i I3).

(** [m.col(j) = v]. *)
Definition set_col {T} (m : Matrix4 T) (j : Index4) (v : Vector4 T) : Matrix4 T :=
  upd4 m j v.

(** The matrix with rows [r0 .. r3], for writing matrices the way they
    are printed. *)
Definition of_rows {T} (r0 r1 r2 r3 : Vector4 T) : Matrix4 T :=
  mkV4 (mkV4 (v0 r0) (v0 r1) (v0 r2) (v0 r3))
       (mkV4 (v1 r0) (v1 r1) (v1 r2) (v1 r3))
       (mkV4 (v2 r0) (v2 r1) (v2 r2) (v2 r3))
       (mkV4 (v3 r0) (v3 r1) (v3 r2) (v3 r3)).

Definition embed3 (i : Index3) : Index4 :=
  match i with X => I0 | Y => I1 | Z3 => I2 end.

(** [m.block(0, 0, 3, 3)] read, and [m.block(0, 0, 3, 3) = b]. *)
Definition block33 {T} (m : Matrix4 T) : Matrix3 T :=
  let c j := mkV3 (coeff m I0 j) (coeff m I1 j) (coeff m I2 j) in
  mkV3 (c I0) (c I1) (c I2).

Definition set_block33 {T} (m : Matrix4 T) (b : Matrix3 T) : Matrix4 T :=
  let c j3 := let cj := get4 m (embed3 j3) in
              mkV4 (coeff3 b X j3) (coeff3 b Y j3) (coeff3 b Z3 j3) (v3 cj) in
  mkV4 (c X) (c Y) (c Z3) (v3 m).

Definition transpose3 {T} (m : Matrix3 T) : Matrix3 T :=
  let r i := mkV3 (coeff3 m i X) (coeff3 m i Y) (coeff3 m i Z3) in
  mkV3 (r X) (r Y) (r Z3).

Section WithArith.
Context {A : Arith}.

Definition Vector3f := Vector3 GLfloat.
Definition Vector4f := Vector4 GLfloat.
Definition Matrix3f := Matrix3 GLfloat.
Definition Matrix4f := Matrix4 GLfloat.
(** [Eigen::MatrixXf], a matrix of run-time size, by rows. *)
Definition MatrixXf := list (list GLfloat).

Definition Vector3f_UnitZ : Vector3f :=
  mkV3 (flit 0) (flit 0) (flit 1).

(** [v.homogeneous()] *)
Definition homogeneous (v : Vector3f) : Vector4f :=
  mkV4 (x v) (y v) (z v) (flit 1).

Definition Matrix3f_Identity : Matrix3f :=
  mkV3 (mkV3 (flit 1) (flit 0) (flit 0))
       (mkV3 (flit 0) (flit 1) (flit 0))
       (mkV3 (flit 0) (flit 0) (flit 1)).

Definition Matrix4f_Identity : Matrix4f :=
  mkV4 (mkV4 (flit 1) (flit 0) (flit 0) (flit 0))
       (mkV4 (flit 0) (flit 1) (flit 0) (flit 0))
       (mkV4 (flit 0) (flit 0) (flit 1) (flit 0))
       (mkV4 (flit 0) (flit 0) (flit 0) (flit 1)).

(** [s * v] and the coefficient-wise product. *)
Definition scale3 (s : GLfloat) (v : Vector3f) : Vector3f :=
  mkV3 (s *f x v) (s *f y v) (s *f z v).

Definition cwiseProduct (u v : Vector3f) : Vector3f :=
  mkV3 (x u *f x v) (y u *f y v) (z u *f z v).

(** [a * b] on 4x4 matrices; each coefficient is the row-by-column sum,
    accumulated from the first term to the last. *)
Definition dot4 (u v : Vector4f) : GLfloat :=
  v0 u *f v0 v +f v1 u *f v1 v +f v2 u *f v2 v +f v3 u *f v3 v.

Definition mul (a b : Matrix4f) : Matrix4f :=
  let c j := mkV4 (dot4 (row a I0) (col b j)) (dot4 (row a I1) (col b j))
                  (dot4 (row a I2) (col b j)) (dot4 (row a I3) (col b j)) in
  mkV4 (c I0) (c I1) (c I2) (c I3).

Definition dot3 (u v : Vector3f) : GLfloat :=
  x u *f x v +f y u *f y v +f z u *f z v.

Definition mul3 (a b : Matrix3f) : Matrix3f :=
  let r i := mkV3 (coeff3 a i X) (coeff3 a i Y) (coeff3 a i Z3) in
  let c j := mkV3 (dot3 (r X) (get3 b j)) (dot3 (r Y) (get3 b j))
                  (dot3 (r Z3) (get3 b j)) in
  mkV3 (c X) (c Y) (c Z3).

(** Determinant of a 3x3 matrix, by expansion along the first row. *)
Definition determinant3 (m : Matrix3f) : GLfloat :=
  let e i j := coeff3 m i j in
  e X X *f (e Y Y *f e Z3 Z3 -f e Y Z3 *f e Z3 Y)
  -f e X Y *f (e Y X *f e Z3 Z3 -f e Y Z3 *f e Z3 X)
  +f e X Z3 *f (e Y X *f e Z3 Y -f e Y Y *f e Z3 X).

(** [Eigen::AngleAxisf(angle, axis).matrix()], that is
    [AngleAxis<float>::toRotationMatrix()] of Eigen/src/Geometry/AngleAxis.h:
    Rodrigues' formula on the axis as stored.  The axis is not
    normalized (Eigen's documentation requires the caller to pass a
    unit axis). *)
Definition AngleAxisf_matrix {C : Cmath A} (angle : GLfloat) (axis : Vector3f)
  : Matrix3f :=
  let res := Matrix3f_Identity in (* uninitialized in Eigen; all 9 are written *)
  let sin_axis := scale3 (sinf angle) axis in
  let c := cosf angle in
  let cos1_axis := scale3 (flit 1 -f c) axis in
  let tmp := x cos1_axis *f y axis in
  let res := set3 res X Y (tmp -f z sin_axis) in
  let res := set3 res Y X (tmp +f z sin_axis) in
  let tmp := x cos1_axis *f z axis in
  let res := set3 res X Z3 (tmp +f y sin_axis) in
  let res := set3 res Z3 X (tmp -f y sin_axis) in
  let tmp := y cos1_axis *f z axis in
  let res := set3 res Y Z3 (tmp -f x sin_axis) in
  let res := set3 res Z3 Y (tmp +f x sin_axis) in
  let d := cwiseProduct cos1_axis axis in
  let res := set3 res X X (x d +f c) in
  let res := set3 res Y Y (y d +f c) in
  let res := set3 res Z3 Z3 (z d +f c) in
  res.
End WithArith.
End Eigen.
Import Eigen.

(** ** Transform library *)

Section Transform.
Context {A : Arith} {C : Cmath A}.

Definition ComputeTranslation (offset : Vector3f) : Matrix4f :=
  let transformation := Matrix4f_Identity in
  let transformation := set_col transformation I3 (homogeneous offset) in
  transformation.

Definition ComputeRotation (axis : Vector3f) (angle : GLfloat) : Matrix4f :=
  let rotation := (angle, axis) in
  let transformation := Matrix4f_Identity in
  let rot3 := AngleAxisf_matrix (fst rotation) (snd rotation) in
  let transformation := set_block33 transformation rot3 in
  transformation.

(** General form.  A [double] literal makes its whole expression
    [double]; the assignment to a coefficient narrows it to [float]. *)
Definition ComputeProjectionMatrix
  (left right top bottom near far : GLfloat) : Matrix4f :=
  let projection := Matrix4f_Identity in
  let projection := set projection I0 I0
    (to_float (dlit 2 *d to_double near /d to_double (right -f left))) in
  let projection := set projection I1 I1
    (to_float (dlit 2 *d to_double near /d to_double (top -f bottom))) in
  let projection := set projection I2 I2
    (fneg (far +f near) /f (far -f near)) in
  let projection := set projection I0 I2
    ((right +f left) /f (right -f left)) in
  let projection := set projection I1 I2
    ((top +f bottom) /f (top -f bottom)) in
  let projection := set projection I2 I3
    (to_float (dneg (dlit 2) *d to_double far *d to_double near
               /d to_double (far -f near))) in
  let projection := set projection I3 I3 (flit 0) in
  let projection := set projection I3 I2 (fneg (flit 1)) in
  projection.

(** Field-of-view form (the second overload of [ComputeProjectionMatrix]).
    The unqualified [tan] is the global function of the C library, at
    [double]: its argument is promoted and the product with [near] is
    narrowed on initializing [top]. *)
Definition ComputeProjectionMatrix_fov
  (field_of_view aspect_ratio near far : GLfloat) : Matrix4f :=
  let pi := flit 3.1416 in
  let top := to_float (to_double near *d
               tan (to_double ((pi /f flit 180) *f field_of_view *f flit 0.5))) in
  let bottom := fneg top in
  let right := top *f aspect_ratio in
  let left := fneg right in
  ComputeProjectionMatrix left right top bottom near far.
End Transform.

(** ** Model state *)

Section ModelState.
Context {A : Arith}.

Record Model := {
  orientation_ : Vector3f;
  position_ : Vector3f;
  vertices_ : MatrixXf
}.

(** The constructor [Model(orientation, position, vertices)]. *)
Definition Model_Model (orientation position : Vector3f) (vertices : MatrixXf)
  : Model :=
  {| orientation_ := orientation;
     position_ := position;
     vertices_ := vertices |}.

Definition SetOrientation (this : Model) (orientation : Vector3f) : Model :=
  {| orientation_ := orientation;
     position_ := position_ this;
     vertices_ := vertices_ this |}.

Definition SetPosition (this : Model) (position : Vector3f) : Model :=
  {| orientation_ := orientation_ this;
     position_ := position;
     vertices_ := vertices_ this |}.

Definition GetOrientation (this : Model) : Vector3f := orientation_ this.

Definition GetPosition (this : Model) : Vector3f := position_ this.

(** [mutable_orientation()] and [mutable_position()] return the address
    of the attribute: what can be read through it, and the object that
    results from a write through it. *)
Definition mutable_orientation (this : Model)
  : Vector3f * (Vector3f -> Model) :=
  (orientation_ this, SetOrientation this).

Definition mutable_position (this : Model)
  : Vector3f * (Vector3f -> Model) :=
  (position_ this, SetPosition this).
End ModelState.

(** ** Render loop and application driver *)

(** Handles and enumerations of OpenGL, GLFW and GLEW. *)
Definition GLuint := Z.
Definition GLint := Z.
Definition GLFWwindow := Z.

Inductive GLFWhint :=
| GLFW_CONTEXT_VERSION_MAJOR
| GLFW_CONTEXT_VERSION_MINOR
| GLFW_OPENGL_PROFILE
| GLFW_OPENGL_FORWARD_COMPAT
| GLFW_RESIZABLE.

Inductive GLFWhintValue :=
| HintInt (n : Z)
| GLFW_OPENGL_CORE_PROFILE.

Inductive GLenum :=
| GL_ARRAY_BUFFER
| GL_STATIC_DRAW
| GL_FLOAT
| GL_TRIANGLES
| GL_COLOR_BUFFER_BIT.

(** Values fixed by glfw3.h, glew.h and gl.h. *)
Definition GL_TRUE : Z := 1.
Definition GL_FALSE : Z := 0.
Definition GLEW_OK : Z := 0.
Definition GLFW_KEY_ESCAPE : Z := 256.
Definition GLFW_PRESS : Z := 1.
Definition sizeof_GLfloat : Z := 4.

(** Window dimensions. *)
Definition kWindowWidth : Z := 640.
Definition kWindowHeight : Z := 480.

Definition newline : string := String (Ascii.ascii_of_nat 10) EmptyString.

(** GLSL shaders. *)
Definition vertex_shader_src : string :=
"#version 330 core
layout (location = 0) in vec3 position;
uniform mat4 model;
uniform mat4 view;
uniform mat4 projection;

void main() {
gl_Position = projection * view * model * vec4(position, 1.0f);
}
".

Definition fragment_shader_src : string :=
"#version 330 core
out vec4 color;
void main() {
color = vec4(1.0f, 0.5f, 0.2f, 1.0f);
}
".

(** What the windowing system hands to [glfwPollEvents]: a key event, for
    which GLFW calls the key callback, or the user's request to close the
    window, for which GLFW raises the window's close flag itself. *)
Inductive InputEvent :=
| KeyEvent (key scancode action mods : Z)
| CloseRequest.

(** [wvu::ShaderProgram] (shader_program.h) as far as the driver looks into
    it: the handle that [shader_program_id()] returns. *)
Record ShaderProgram := { shader_program_id : GLuint }.

Section Driver.
Context {A : Arith} {C : Cmath A}.

(** Triangle vertices (in the model space). *)
Definition vertices : list GLfloat :=
  [ fneg (flit 500); fneg (flit 500); flit 0;
    flit 500; fneg (flit 500); flit 0;
    flit 0; flit 500; flit 0 ].

(** The effects of the program, in the order it performs them: calls of
    GLFW, GLEW, OpenGL and [wvu::ShaderProgram], output, and writes to an
    object of class [Model].  A call carries its arguments, without the
    callbacks and the null pointers of [glfwCreateWindow]; what it returns
    comes from the [World] below. *)
Inductive Call :=
(* GLFW *)
| glfwInit
| glfwSetErrorCallback
| glfwWindowHint (hint : GLFWhint) (value : GLFWhintValue)
| glfwCreateWindow (width height : Z) (title : string)
| glfwTerminate
| glfwMakeContextCurrent (window : GLFWwindow)
| glfwSwapInterval (interval : Z)
| glfwSetKeyCallback (window : GLFWwindow)
| glfwGetFramebufferSize (window : GLFWwindow)
| glfwWindowShouldClose (window : GLFWwindow)
| glfwSetWindowShouldClose (window : GLFWwindow) (value : Z)
| glfwGetTime
| glfwSwapBuffers (window : GLFWwindow)
| glfwPollEvents
| glfwDestroyWindow (window : GLFWwindow)
(* GLEW *)
| glewExperimental_assign (value : Z)
| glewInit
(* OpenGL *)
| glViewport (x y width height : Z)
| glClearColor (red green blue alpha : GLfloat)
| glClear (mask : GLenum)
| glGenBuffers (n : Z)
| glBindBuffer (target : GLenum) (buffer : GLuint)
| glBufferData (target : GLenum) (size : Z) (data : list GLfloat) (usage : GLenum)
| glVertexAttribPointer (index : GLuint) (size : Z) (type : GLenum)
                        (normalized : Z) (stride : Z) (pointer : option Z)
| glEnableVertexAttribArray (index : GLuint)
| glGenVertexArrays (n : Z)
| glBindVertexArray (array : GLuint)
| glDeleteVertexArrays (n : Z) (array : GLuint)
| glDeleteBuffers (n : Z) (buffer : GLuint)
| glGetUniformLocation (program : GLuint) (name : string)
| glUniformMatrix4fv (location : GLint) (count : Z) (transpose : Z)
                     (value : Matrix4f)
| glDrawArrays (mode : GLenum) (first count : Z)
(* wvu::ShaderProgram *)
| LoadVertexShaderFromString (src : string)
| LoadFragmentShaderFromString (src : string)
| Create
| Use (program : GLuint)
(* std::cout, std::cerr *)
| cout (text : string)
| cout_matrix (m : Matrix4f)
| cerr (text : string)
(* class Model: construction and the two setters *)
| Model_write_Model (m : Model)
| Model_write_SetOrientation (orientation : Vector3f)
| Model_write_SetPosition (position : Vector3f).

(** What the services answer.  The clock and the input depend on the
    frame, counted by the calls of [glfwPollEvents]. *)
Record World := {
  glfwInit_returns : bool;
  glfwCreateWindow_returns : option GLFWwindow;      (* nullptr is None *)
  glewInit_returns : Z;
  glfwGetFramebufferSize_returns : Z * Z;
  Create_returns : bool * string * ShaderProgram;    (* result, error_info_log *)
  glGenVertexArrays_returns : GLuint;
  glGenBuffers_returns : GLuint;
  glGetUniformLocation_returns : GLuint -> string -> GLint;
  glfwGetTime_returns : nat -> double;
  glfwPollEvents_delivers : nat -> list InputEvent
}.

(** The state that the calls act on: the trace of effects, the close
    flag of the window, and the number of frames polled. *)
Record State := {
  trace : list Call;
  close_flag : bool;
  frames : nat
}.

Definition initial : State :=
  {| trace := []; close_flag := false; frames := 0 |}.

Definition M (T : Type) : Type := State -> T * State.

Definition ret {T} (v : T) : M T := fun s => (v, s).

Definition bind {T U} (m : M T) (k : T -> M U) : M U :=
  fun s => let '(v, s') := m s in k v s'.

Definition call (c : Call) : M unit :=
  fun s => (tt, {| trace := trace s ++ [c];
                   close_flag := close_flag s;
                   frames := frames s |}).

Definition get_close_flag : M bool := fun s => (close_flag s, s).

Definition set_close_flag (b : bool) : M unit :=
  fun s => (tt, {| trace := trace s; close_flag := b; frames := frames s |}).

Definition get_frames : M nat := fun s => (frames s, s).

Definition next_frame : M unit :=
  fun s => (tt, {| trace := trace s;
                   close_flag := close_flag s;
                   frames := S (frames s) |}).
End Driver.

Notation "x <- m ;; k" := (bind m (fun x => k))
  (at level 61, m at next level, right associativity) : cxx_scope.
Notation "m ;; k" := (bind m (fun _ => k))
  (at level 61, right associativity) : cxx_scope.

Section Program.
Context {A : Arith} {C : Cmath A}.
Variable world : World.

(** Error callback. *)
Definition ErrorCallback (error : Z) (description : string) : M unit :=
  call (cerr ("ERROR: " ++ description ++ newline)).

(** Key callback. *)
Definition KeyCallback (window : GLFWwindow) (key scancode action mods : Z)
  : M unit :=
  if (key =? GLFW_KEY_ESCAPE)%Z && (action =? GLFW_PRESS)%Z then
    call (glfwSetWindowShouldClose window GL_TRUE) ;;
    set_close_flag true
  else ret tt.

(** [glfwPollEvents()]: the events of the frame, in order. *)
Fixpoint deliver (window : GLFWwindow) (events : list InputEvent) : M unit :=
  match events with
  | [] => ret tt
  | KeyEvent key scancode action mods :: rest =>
      KeyCallback window key scancode action mods ;;
      deliver window rest
  | CloseRequest :: rest =>
      set_close_flag true ;;
      deliver window rest
  end.

Definition PollEvents (window : GLFWwindow) : M unit :=
  call glfwPollEvents ;;
  k <- get_frames ;;
  deliver window (glfwPollEvents_delivers world k) ;;
  next_frame.

(** Configures glfw. *)
Definition SetWindowHints : M unit :=
  call (glfwWindowHint GLFW_CONTEXT_VERSION_MAJOR (HintInt 3)) ;;
  call (glfwWindowHint GLFW_CONTEXT_VERSION_MINOR (HintInt 2)) ;;
  call (glfwWindowHint GLFW_OPENGL_PROFILE GLFW_OPENGL_CORE_PROFILE) ;;
  call (glfwWindowHint GLFW_OPENGL_FORWARD_COMPAT (HintInt GL_TRUE)) ;;
  call (glfwWindowHint GLFW_RESIZABLE (HintInt GL_FALSE)).

(** Configures the view port. *)
Definition ConfigureViewPort (window : GLFWwindow) : M unit :=
  call (glfwGetFramebufferSize window) ;;
  let '(width, height) := glfwGetFramebufferSize_returns world in
  call (glViewport 0 0 width height).

(** Clears the frame buffer. *)
Definition ClearTheFrameBuffer : M unit :=
  call (glClearColor (flit 0) (flit 0) (flit 0) (flit 1)) ;;
  call (glClear GL_COLOR_BUFFER_BIT).

(** Creates and transfers the vertices into the GPU. *)
Definition SetVertexBufferObject : M GLuint :=
  call (glGenBuffers 1) ;;
  let vertex_buffer_object_id := glGenBuffers_returns world in
  call (glBindBuffer GL_ARRAY_BUFFER vertex_buffer_object_id) ;;
  call (glBufferData GL_ARRAY_BUFFER
          (Z.of_nat (List.length vertices) * sizeof_GLfloat) vertices
          GL_STATIC_DRAW) ;;
  let kIndex := 0%Z in
  let kNumElementsInBuffer := 3%Z in
  let kBufferSize := (kNumElementsInBuffer * sizeof_GLfloat)%Z in
  let offset_ptr : option Z := None in
  call (glVertexAttribPointer kIndex kNumElementsInBuffer GL_FLOAT GL_FALSE
          kBufferSize offset_ptr) ;;
  call (glEnableVertexAttribArray kIndex) ;;
  call (glBindBuffer GL_ARRAY_BUFFER 0) ;;
  ret vertex_buffer_object_id.

(** Creates and sets the vertex array object (VAO); returns the two ids
    that the source writes through its pointer arguments, buffer first. *)
Definition SetVertexArrayObject : M (GLuint * GLuint) :=
  let kNumVertexArrays := 1%Z in
  call (glGenVertexArrays kNumVertexArrays) ;;
  let vertex_array_object_id := glGenVertexArrays_returns world in
  call (glBindVertexArray vertex_array_object_id) ;;
  vertex_buffer_object_id <- SetVertexBufferObject ;;
  call (glBindVertexArray 0) ;;
  ret (vertex_buffer_object_id, vertex_array_object_id).

(** The model matrix of a frame, as [RenderScene] computes it. *)
Definition frame_model (angle : GLfloat) : Matrix4f :=
  let translation :=
    ComputeTranslation
      (mkV3 (flit 0) (flit 0)
            (to_float (sin (dlit 0.5 *d to_double angle) -d to_double (flit 1)))) in
  let rotation := ComputeRotation Vector3f_UnitZ angle in
  let model := mul translation rotation in
  model.

(** Renders the scene. *)
Definition RenderScene (shader_program : ShaderProgram)
  (vertex_array_object_id : GLuint) (projection : Matrix4f)
  (angle : GLfloat) (window : GLFWwindow) : M unit :=
  ClearTheFrameBuffer ;;
  call (Use (shader_program_id shader_program)) ;;
  call (glGetUniformLocation (shader_program_id shader_program) "model") ;;
  let model_location :=
    glGetUniformLocation_returns world (shader_program_id shader_program) "model" in
  call (glGetUniformLocation (shader_program_id shader_program) "view") ;;
  let view_location :=
    glGetUniformLocation_returns world (shader_program_id shader_program) "view" in
  call (glGetUniformLocation (shader_program_id shader_program) "projection") ;;
  let projection_location :=
    glGetUniformLocation_returns world (shader_program_id shader_program)
      "projection" in
  let model := frame_model angle in
  call (cout ("Model: " ++ newline)) ;;
  call (cout_matrix model) ;;
  call (cout newline) ;;
  let view := Matrix4f_Identity in
  call (glUniformMatrix4fv model_location 1 GL_FALSE model) ;;
  call (glUniformMatrix4fv view_location 1 GL_FALSE view) ;;
  call (glUniformMatrix4fv projection_location 1 GL_FALSE projection) ;;
  call (glBindVertexArray vertex_array_object_id) ;;
  call (glDrawArrays GL_TRIANGLES 0 3) ;;
  call (glBindVertexArray 0).

(** One pass through the body of the loop of [main]. *)
Definition frame (shader_program : ShaderProgram)
  (vertex_array_object_id : GLuint) (projection_matrix : Matrix4f)
  (window : GLFWwindow) : M unit :=
  call glfwGetTime ;;
  k <- get_frames ;;
  let angle := to_float (glfwGetTime_returns world k) *f flit 10 in
  RenderScene shader_program vertex_array_object_id projection_matrix angle
    window ;;
  call (glfwSwapBuffers window) ;;
  PollEvents window.

(** [while (!glfwWindowShouldClose(window)) { ... }], for at most [fuel]
    evaluations of the condition.  [true]: the loop was left; [false]:
    it is still running when the fuel is spent. *)
Fixpoint loop (fuel : nat) (shader_program : ShaderProgram)
  (vertex_array_object_id : GLuint) (projection_matrix : Matrix4f)
  (window : GLFWwindow) : M bool :=
  match fuel with
  | O => ret false
  | S fuel' =>
      call (glfwWindowShouldClose window) ;;
      closing <- get_close_flag ;;
      if closing then ret true
      else
        frame shader_program vertex_array_object_id projection_matrix window ;;
        loop fuel' shader_program vertex_array_object_id projection_matrix window
  end.

(** [main]: the value returned, or [None] while the loop is running. *)
Definition main (fuel : nat) : M (option Z) :=
  call glfwInit ;;
  if negb (glfwInit_returns world) then ret (Some (-1)%Z)
  else
    call glfwSetErrorCallback ;;
    SetWindowHints ;;
    let window_name := "Hello Triangle"%string in
    call (glfwCreateWindow kWindowWidth kWindowHeight window_name) ;;
    match glfwCreateWindow_returns world with
    | None =>
        call glfwTerminate ;;
        ret (Some (-1)%Z)
    | Some window =>
        call (glfwMakeContextCurrent window) ;;
        call (glfwSwapInterval 1) ;;
        call (glfwSetKeyCallback window) ;;
        call (glewExperimental_assign GL_TRUE) ;;
        call glewInit ;;
        if negb (glewInit_returns world =? GLEW_OK)%Z then
          call (cerr ("Glew did not initialize properly!" ++ newline)) ;;
          call glfwTerminate ;;
          ret (Some (-1)%Z)
        else
          ConfigureViewPort window ;;
          call (LoadVertexShaderFromString vertex_shader_src) ;;
          call (LoadFragmentShaderFromString fragment_shader_src) ;;
          call Create ;;
          let '(created, error_info_log, shader_program) := Create_returns world in
          (if negb created
           then call (cout ("ERROR: " ++ error_info_log ++ newline))
           else ret tt) ;;
          if (shader_program_id shader_program =? 0)%Z then
            call (cerr ("ERROR: Could not create a shader program." ++ newline)) ;;
            ret (Some (-1)%Z)
          else
            ids <- SetVertexArrayObject ;;
            let '(vertex_buffer_object_id, vertex_array_object_id) := ids in
            let projection_matrix :=
              ComputeProjectionMatrix
                (int_to_float (-320)) (int_to_float 320)
                (int_to_float 240) (int_to_float (-240))
                (to_float (dlit 0.1)) (int_to_float 10) in
            call (cout_matrix projection_matrix) ;;
            call (cout newline) ;;
            left_loop <- loop fuel shader_program vertex_array_object_id
                           projection_matrix window ;;
            if left_loop then
              call (glDeleteVertexArrays 1 vertex_array_object_id) ;;
              call (glDeleteBuffers 1 vertex_buffer_object_id) ;;
              call (glfwDestroyWindow window) ;;
              call glfwTerminate ;;
              ret (Some 0%Z)
            else ret None
    end.
End Program.

(** ** What a run shows *)

Section Observations.
Context {A : Arith} {C : Cmath A}.

(** An input event that raises the close flag: the Escape key going down
    (through [KeyCallback]) or a request to close the window. *)
Definition closes (e : InputEvent) : bool :=
  match e with
  | KeyEvent key _ action _ => (key =? GLFW_KEY_ESCAPE) && (action =? GLFW_PRESS)
  | CloseRequest => true
  end.

Definition close_requested (w : World) (k : nat) : bool :=
  existsb closes (glfwPollEvents_delivers w k).

(** The four ways in which the start-up of [main] fails. *)
Definition init_failure (w : World) : Prop :=
  glfwInit_returns w = false \/
  glfwCreateWindow_returns w = None \/
  glewInit_returns w <> GLEW_OK \/
  shader_program_id (snd (Create_returns w)) = 0.

(** The cleaning up tasks at the end of [main]. *)
Definition teardown (w : World) (window : GLFWwindow) : list Call :=
  [ glDeleteVertexArrays 1 (glGenVertexArrays_returns w);
    glDeleteBuffers 1 (glGenBuffers_returns w);
    glfwDestroyWindow window;
    glfwTerminate ].

Definition is_Model_write (c : Call) : bool :=
  match c with
  | Model_write_Model _
  | Model_write_SetOrientation _
  | Model_write_SetPosition _ => true
  | _ => false
  end.

(** A trace in which no [Model] is constructed or set. *)
Definition quiet (t : list Call) : Prop :=
  forallb (fun c => negb (is_Model_write c)) t = true.

(** The projection matrix that [main] computes once. *)
Definition projection_matrix : Matrix4f :=
  ComputeProjectionMatrix
    (int_to_float (-320)) (int_to_float 320)
    (int_to_float 240) (int_to_float (-240))
    (to_float (dlit 0.1)) (int_to_float 10).

Definition with_trace (s : State) (t : list Call) : State :=
  {| trace := t; close_flag := close_flag s; frames := frames s |}.

Variable w : World.

(** The calls that [glfwPollEvents] makes back into the program. *)
Fixpoint deliver_calls (window : GLFWwindow) (events : list InputEvent)
  : list Call :=
  match events with
  | [] => []
  | e :: rest =>
      match e with
      | KeyEvent _ _ _ _ =>
          if closes e then [glfwSetWindowShouldClose window GL_TRUE] else []
      | CloseRequest => []
      end ++ deliver_calls window rest
  end.

(** The effects of one call of [RenderScene], in order. *)
Definition RenderScene_calls (sp : ShaderProgram) (vao : GLuint)
  (proj : Matrix4f) (angle : GLfloat) : list Call :=
  let id := shader_program_id sp in
  let location := glGetUniformLocation_returns w id in
  [ glClearColor (flit 0) (flit 0) (flit 0) (flit 1);
    glClear GL_COLOR_BUFFER_BIT;
    Use id;
    glGetUniformLocation id "model";
    glGetUniformLocation id "view";
    glGetUniformLocation id "projection";
    cout ("Model: " ++ newline);
    cout_matrix (frame_model angle);
    cout newline;
    glUniformMatrix4fv (location "model"%string) 1 GL_FALSE (frame_model angle);
    glUniformMatrix4fv (location "view"%string) 1 GL_FALSE Matrix4f_Identity;
    glUniformMatrix4fv (location "projection"%string) 1 GL_FALSE proj;
    glBindVertexArray vao;
    glDrawArrays GL_TRIANGLES 0 3;
    glBindVertexArray 0 ].

(** The angle of frame [k]. *)
Definition angle_at (k : nat) : GLfloat :=
  to_float (glfwGetTime_returns w k) *f flit 10.

(** The effects of one pass through the loop body, at frame [k]. *)
Definition frame_calls (sp : ShaderProgram) (vao : GLuint) (proj : Matrix4f)
  (window : GLFWwindow) (k : nat) : list Call :=
  glfwGetTime :: RenderScene_calls sp vao proj (angle_at k)
  ++ [glfwSwapBuffers window; glfwPollEvents]
  ++ deliver_calls window (glfwPollEvents_delivers w k).

(** The effects of a successful start-up, up to the loop. *)
Definition startup_calls (window : GLFWwindow) : list Call :=
  [ glfwInit;
    glfwSetErrorCallback;
    glfwWindowHint GLFW_CONTEXT_VERSION_MAJOR (HintInt 3);
    glfwWindowHint GLFW_CONTEXT_VERSION_MINOR (HintInt 2);
    glfwWindowHint GLFW_OPENGL_PROFILE GLFW_OPENGL_CORE_PROFILE;
    glfwWindowHint GLFW_OPENGL_FORWARD_COMPAT (HintInt GL_TRUE);
    glfwWindowHint GLFW_RESIZABLE (HintInt GL_FALSE);
    glfwCreateWindow kWindowWidth kWindowHeight "Hello Triangle";
    glfwMakeContextCurrent window;
    glfwSwapInterval 1;
    glfwSetKeyCallback window;
    glewExperimental_assign GL_TRUE;
    glewInit;
    glfwGetFramebufferSize window;
    glViewport 0 0 (fst (glfwGetFramebufferSize_returns w))
                   (snd (glfwGetFramebufferSize_returns w));
    LoadVertexShaderFromString vertex_shader_src;
    LoadFragmentShaderFromString fragment_shader_src;
    Create ]
  ++ (if fst (fst (Create_returns w)) then []
      else [cout ("ERROR: " ++ snd (fst (Create_returns w)) ++ newline)])
  ++ [ glGenVertexArrays 1;
       glBindVertexArray (glGenVertexArrays_returns w);
       glGenBuffers 1;
       glBindBuffer GL_ARRAY_BUFFER (glGenBuffers_returns w);
       glBufferData GL_ARRAY_BUFFER
         (Z.of_nat (List.length vertices) * sizeof_GLfloat) vertices
         GL_STATIC_DRAW;
       glVertexAttribPointer 0 3 GL_FLOAT GL_FALSE (3 * sizeof_GLfloat) None;
       glEnableVertexAttribArray 0;
       glBindBuffer GL_ARRAY_BUFFER 0;
       glBindVertexArray 0;
       cout_matrix projection_matrix;
       cout newline ].

(** The state in which [main] enters its loop. *)
Definition started (window : GLFWwindow) : State :=
  {| trace := startup_calls window; close_flag := false; frames := 0 |}.
End Observations.

(** ** Exact arithmetic with a non-finite value *)

Module Exact.

(** A real number, or [None] for everything that is not one (an
    infinity or a NaN of the machine arithmetic). *)
Definition xreal : Type := option R.

Definition finite (a : xreal) : bool :=
  match a with Some _ => true | None => false end.

Definition lift1 (f : R -> R) (a : xreal) : xreal :=
  match a with Some u => Some (f u) | None => None end.

Definition lift2 (f : R -> R -> R) (a b : xreal) : xreal :=
  match a, b with Some u, Some v => Some (f u v) | _, _ => None end.

Definition xdiv (a b : xreal) : xreal :=
  match a, b with
  | Some u, Some v => if Req_dec_T v 0 then None else Some (u / v)%R
  | _, _ => None
  end.

(** The tangent has poles where the cosine vanishes. *)
Definition xtan (a : xreal) : xreal :=
  match a with
  | Some u => if Req_dec_T (Rtrigo_def.cos u) 0 then None else Some (Rtrigo1.tan u)
  | None => None
  end.

#[export] Instance arith : Arith := {|
  GLfloat := xreal;
  double := xreal;
  to_double := fun a => a;
  to_float := fun a => a;
  int_to_float := fun n => Some (IZR n);
  flit := fun q => Some (Q2R q);
  dlit := fun q => Some (Q2R q);
  fadd := lift2 Rplus;
  fsub := lift2 Rminus;
  fmul := lift2 Rmult;
  fdiv := xdiv;
  fneg := lift1 Ropp;
  dadd := lift2 Rplus;
  dsub := lift2 Rminus;
  dmul := lift2 Rmult;
  ddiv := xdiv;
  dneg := lift1 Ropp
|}.

#[export] Instance cmath : Cmath arith := {|
  sin := lift1 Rtrigo_def.sin;
  tan := xtan;
  sinf := lift1 Rtrigo_def.sin;
  cosf := lift1 Rtrigo_def.cos
|}.

(** A matrix of real numbers as a matrix of the arithmetic, and the
    finiteness of all sixteen coefficients. *)
Definition inj4 (v : Vector4 R) : Vector4 xreal :=
  mkV4 (Some (v0 v)) (Some (v1 v)) (Some (v2 v)) (Some (v3 v)).

Definition inj (m : Matrix4 R) : Matrix4 xreal :=
  mkV4 (inj4 (v0 m)) (inj4 (v1 m)) (inj4 (v2 m)) (inj4 (v3 m)).

Definition inj3 (m : Matrix3 R) : Matrix3 xreal :=
  let c (v : Vector3 R) := mkV3 (Some (x v)) (Some (y v)) (Some (z v)) in
  mkV3 (c (x m)) (c (y m)) (c (z m)).

Definition all4 {T} (p : T -> bool) (v : Vector4 T) : bool :=
  p (v0 v) && p (v1 v) && p (v2 v) && p (v3 v).

Definition all_finite (m : Matrix4 xreal) : bool := all4 (all4 finite) m.


(** The field-of-view form as the specification words it: the bounds are
    derived with the number pi. *)
Definition fov_form_spec (field_of_view_deg aspect_ratio near far : R)
  : Matrix4 xreal :=
  let top := (near * Rtrigo1.tan (PI / 180 * field_of_view_deg / 2))%R in
  let bottom := (- top)%R in
  let right := (top * aspect_ratio)%R in
  let left := (- right)%R in
  ComputeProjectionMatrix (Some left) (Some right) (Some top) (Some bottom)
    (Some near) (Some far).

(** A world in which everything starts and the user presses Escape
    during the first frame, and one in which GLFW does not start. *)
Definition world_escape : World :=
  {| glfwInit_returns := true;
     glfwCreateWindow_returns := Some 1;
     glewInit_returns := GLEW_OK;
     glfwGetFramebufferSize_returns := (640, 480);
     Create_returns := (true, EmptyString, {| shader_program_id := 3 |});
     glGenVertexArrays_returns := 1;
     glGenBuffers_returns := 1;
     glGetUniformLocation_returns := fun _ name => Z.of_nat (String.length name);
     glfwGetTime_returns := fun _ => Some 0%R;
     glfwPollEvents_delivers :=
       fun k => match k with
                | O => [KeyEvent GLFW_KEY_ESCAPE 9 GLFW_PRESS 0]
                | S _ => []
                end |}.

Definition world_no_glfw : World :=
  {| glfwInit_returns := false;
     glfwCreateWindow_returns := Some 1;
     glewInit_returns := GLEW_OK;
     glfwGetFramebufferSize_returns := (640, 480);
     Create_returns := (true, EmptyString, {| shader_program_id := 3 |});
     glGenVertexArrays_returns := 1;
     glGenBuffers_returns := 1;
     glGetUniformLocation_returns := fun _ name => Z.of_nat (String.length name);
     glfwGetTime_returns := fun _ => Some 0%R;
     glfwPollEvents_delivers := fun _ => [] |}.

(** A world in which everything starts and no input ever arrives. *)
Definition world_idle : World :=
  {| glfwInit_returns := true;
     glfwCreateWindow_returns := Some 1;
     glewInit_returns := GLEW_OK;
     glfwGetFramebufferSize_returns := (640, 480);
     Create_returns := (true, EmptyString, {| shader_program_id := 3 |});
     glGenVertexArrays_returns := 1;
     glGenBuffers_returns := 1;
     glGetUniformLocation_returns := fun _ name => Z.of_nat (String.length name);
     glfwGetTime_returns := fun _ => Some 0%R;
     glfwPollEvents_delivers := fun _ => [] |}.

End Exact.

(** ** IEEE 754 arithmetic *)

Module IEEE.

(** binary32 and binary64 as [spec_float] values of precision 24 and 53. *)
Definition binary32 : Type := spec_float.
Definition binary64 : Type := spec_float.

Definition prec32 : Z := 24.
Definition emax32 : Z := 128.
Definition prec64 : Z := 53.
Definition emax64 : Z := 1024.

Definition finite (a : spec_float) : bool :=
  match a with S754_zero _ | S754_finite _ _ _ => true | _ => false end.

(** Conversion to a format: zeros, infinities and NaN are kept, a finite
    number is rounded to the nearest, ties to even. *)
Definition convert (prec emax : Z) (a : spec_float) : spec_float :=
  match a with
  | S754_finite s m e => binary_normalize prec emax (cond_Zopp s (Zpos m)) e s
  | _ => a
  end.

Definition of_Z (prec emax : Z) (n : Z) : spec_float :=
  binary_normalize prec emax n 0 false.

(** A decimal literal [n / d]: the correctly rounded quotient, for [n]
    and [d] that the format holds exactly, which is the case of every
    literal of the source. *)
Definition of_Q (prec emax : Z) (q : Q) : spec_float :=
  SFdiv prec emax (of_Z prec emax (Qnum q)) (of_Z prec emax (Zpos (Qden q))).

#[export] Instance arith : Arith := {|
  GLfloat := binary32;
  double := binary64;
  to_double := convert prec64 emax64;
  to_float := convert prec32 emax32;
  int_to_float := of_Z prec32 emax32;
  flit := of_Q prec32 emax32;
  dlit := of_Q prec64 emax64;
  fadd := SFadd prec32 emax32;
  fsub := SFsub prec32 emax32;
  fmul := SFmul prec32 emax32;
  fdiv := SFdiv prec32 emax32;
  fneg := SFopp;
  dadd := SFadd prec64 emax64;
  dsub := SFsub prec64 emax64;
  dmul := SFmul prec64 emax64;
  ddiv := SFdiv prec64 emax64;
  dneg := SFopp
|}.

Definition all_finite (m : Matrix4 binary32) : bool :=
  Exact.all4 (Exact.all4 finite) m.

(** The rational number that a finite value is. *)
Definition value (a : spec_float) : option Q :=
  match a with
  | S754_zero _ => Some 0%Q
  | S754_finite s m e => Some (inject_Z (cond_Zopp s (Zpos m)) * 2 ^ e)%Q
  | _ => None
  end.

(** [a] is finite and is the number [q]. *)
Definition is_value (a : spec_float) (q : Q) : bool :=
  match value a with
  | Some v => Qeq_bool v q
  | None => false
  end.

(** [FLT_EPSILON] of [<cfloat>], 2^-23. *)
Definition FLT_EPSILON : binary32 := S754_finite false 8388608 (-46).

(** [|a - b| <= eps] at binary32; it does not hold of a NaN. *)
Definition within (eps a b : binary32) : bool :=
  SFleb (SFabs (SFsub prec32 emax32 a b)) eps.

End IEEE.


(** ** The C library's sine, cosine and tangent *)

Module Libm.

(** The functions of [<cmath>] are outside the program.  They are read
    here as the correctly rounded functions: the value is computed in a
    binary format of [wprec] digits, wide enough for the size of the
    argument, from the argument reduced by a multiple of 2 pi, and rounded
    once to the format of the result.  A zero is returned as it is by the
    sine and the tangent, an infinity or a NaN gives NaN. *)
Definition wemax : Z := 1048576.

Section Wide.
Variable wprec : Z.

Definition wadd : spec_float -> spec_float -> spec_float := SFadd wprec wemax.
Definition wsub : spec_float -> spec_float -> spec_float := SFsub wprec wemax.
Definition wmul : spec_float -> spec_float -> spec_float := SFmul wprec wemax.
Definition wdiv : spec_float -> spec_float -> spec_float := SFdiv wprec wemax.
Definition wZ (n : Z) : spec_float := IEEE.of_Z wprec wemax n.

(** [atan (1 / n)] by its series: [p] is [1 / n^(2k+1)], [n2] is [n^2]. *)
Fixpoint atan_inv (terms : nat) (n2 : spec_float) (k : Z) (p acc : spec_float)
  : spec_float :=
  match terms with
  | O => acc
  | S terms' =>
      let t := wdiv p (wZ (2 * k + 1)) in
      atan_inv terms' n2 (k + 1) (wdiv p n2)
        (if Z.even k then wadd acc t else wsub acc t)
  end.

(** Machin: pi = 16 atan (1/5) - 4 atan (1/239); a term of the first
    series gains more than four digits, one of the second more than
    fifteen. *)
Definition wpi : spec_float :=
  wsub (wmul (wZ 16)
          (atan_inv (Z.to_nat (wprec / 4) + 2) (wZ 25) 0
             (wdiv (wZ 1) (wZ 5)) (wZ 0)))
       (wmul (wZ 4)
          (atan_inv (Z.to_nat (wprec / 15) + 2) (wZ 57121) 0
             (wdiv (wZ 1) (wZ 239)) (wZ 0))).

(** The integer nearest to a number of the wide format. *)
Definition nearest (a : spec_float) : Z :=
  match wadd a (wdiv (wZ 1) (wZ 2)) with
  | S754_finite s m e =>
      let v := cond_Zopp s (Zpos m) in
      if 0 <=? e then v * 2 ^ e else v / 2 ^ (- e)
  | _ => 0
  end.

(** The argument less the nearest multiple of 2 pi. *)
Definition reduce (a : spec_float) : spec_float :=
  let two_pi := wmul (wZ 2) wpi in
  wsub a (wmul (wZ (nearest (wdiv a two_pi))) two_pi).

(** The series of the sine and of the cosine from the term of index [k]
    on: the next term is the term times [- r^2 / ((k+1) (k+2))]. *)
Fixpoint series (terms : nat) (r2 : spec_float) (k : Z) (term acc : spec_float)
  : spec_float :=
  match terms with
  | O => acc
  | S terms' =>
      series terms' r2 (k + 2)
        (SFopp (wdiv (wmul term r2) (wZ ((k + 1) * (k + 2)))))
        (wadd acc term)
  end.

Definition wsin (a : spec_float) : spec_float :=
  let r := reduce a in
  series (Z.to_nat (wprec / 4) + 10) (wmul r r) 1 r (wZ 0).

Definition wcos (a : spec_float) : spec_float :=
  let r := reduce a in
  series (Z.to_nat (wprec / 4) + 10) (wmul r r) 0 (wZ 1) (wZ 0).

Definition wtan (a : spec_float) : spec_float := wdiv (wsin a) (wcos a).
End Wide.

(** The digits that the evaluation at an argument takes: those of its
    integer part, those of the result, and a hundred more. *)
Definition digits_for (prec : Z) (a : spec_float) : Z :=
  match a with
  | S754_finite _ m e => prec + 100 + Z.max 0 (Zpos (digits2_pos m) + e)
  | _ => prec + 100
  end.

(** A function of [<cmath>] at a format, from its wide evaluation. *)
Definition at_format (prec emax : Z) (zero_kept : bool)
  (f : Z -> spec_float -> spec_float) (a : spec_float) : spec_float :=
  let wprec := digits_for prec a in
  match a with
  | S754_zero _ =>
      if zero_kept then a else IEEE.convert prec emax (f wprec (wZ wprec 0))
  | S754_finite _ _ _ =>
      IEEE.convert prec emax (f wprec (IEEE.convert wprec wemax a))
  | _ => S754_nan
  end.

#[export] Instance cmath : Cmath IEEE.arith :=
  @Build_Cmath IEEE.arith
    (* sin *) (at_format IEEE.prec64 IEEE.emax64 true wsin)
    (* tan *) (at_format IEEE.prec64 IEEE.emax64 true wtan)
    (* sinf *) (at_format IEEE.prec32 IEEE.emax32 true wsin)
    (* cosf *) (at_format IEEE.prec32 IEEE.emax32 false wcos).

End Libm.

(** ** The vertex shader and the bindings of OpenGL *)

Section Shader.
Context {A : Arith}.

(** [u + v] on 3-vectors and [m * v] on a 4x4 matrix and a 4-vector. *)
Definition add3 (u v : Vector3f) : Vector3f :=
  mkV3 (x u +f x v) (y u +f y v) (z u +f z v).

Definition mulv (m : Matrix4f) (v : Vector4f) : Vector4f :=
  mkV4 (dot4 (row m I0) v) (dot4 (row m I1) v)
       (dot4 (row m I2) v) (dot4 (row m I3) v).

(** [vertex_shader_src]:
    [gl_Position = projection * view * model * vec4(position, 1.0f)],
    the product taken from the left as GLSL does. *)
Definition vertex_shader (model view projection : Matrix4f)
  (position : Vector3f) : Vector4f :=
  let gl_Position :=
    mulv (mul (mul projection view) model)
         (mkV4 (x position) (y position) (z position) (flit 1)) in
  gl_Position.
End Shader.

Section Bindings.
Context {A : Arith} {C : Cmath A}.

(** The two bindings of OpenGL that the program changes: the vertex array
    and the buffer bound to [GL_ARRAY_BUFFER]; 0 is no object. *)
Record Bindings := { vertex_array : GLuint; array_buffer : GLuint }.

Definition unbound : Bindings := {| vertex_array := 0; array_buffer := 0 |}.

(** The bindings after a call: a bind sets one, the deletion of the object
    that is bound resets it. *)
Definition bind_step (b : Bindings) (c : Call) : Bindings :=
  match c with
  | glBindVertexArray a => {| vertex_array := a; array_buffer := array_buffer b |}
  | glBindBuffer GL_ARRAY_BUFFER buf =>
      {| vertex_array := vertex_array b; array_buffer := buf |}
  | glDeleteVertexArrays _ a =>
      if vertex_array b =? a
      then {| vertex_array := 0; array_buffer := array_buffer b |} else b
  | glDeleteBuffers _ buf =>
      if array_buffer b =? buf
      then {| vertex_array := vertex_array b; array_buffer := 0 |} else b
  | _ => b
  end.

Definition bindings_after (b : Bindings) (t : list Call) : Bindings :=
  fold_left bind_step t b.

(** A call that works on what is bound finds the program's own objects
    bound: a draw its vertex array, an upload its buffer, the attribute
    set-up both. *)
Definition allowed (vao vbo : GLuint) (b : Bindings) (c : Call) : bool :=
  match c with
  | glDrawArrays _ _ _ => vertex_array b =? vao
  | glBufferData _ _ _ _ => array_buffer b =? vbo
  | glVertexAttribPointer _ _ _ _ _ _ =>
      (vertex_array b =? vao) && (array_buffer b =? vbo)
  | glEnableVertexAttribArray _ => vertex_array b =? vao
  | _ => true
  end.

Fixpoint disciplined (vao vbo : GLuint) (b : Bindings) (t : list Call) : bool :=
  match t with
  | [] => true
  | c :: rest => allowed vao vbo b c && disciplined vao vbo (bind_step b c) rest
  end.

Definition is_draw (c : Call) : bool :=
  match c with glDrawArrays _ _ _ => true | _ => false end.

(** The number of draw calls of a trace. *)
Definition draw_count (t : list Call) : nat := List.length (filter is_draw t).

(** A call of OpenGL proper. *)
Definition is_gl (c : Call) : bool :=
  match c with
  | glViewport _ _ _ _ | glClearColor _ _ _ _ | glClear _ | glGenBuffers _
  | glBindBuffer _ _ | glBufferData _ _ _ _ | glVertexAttribPointer _ _ _ _ _ _
  | glEnableVertexAttribArray _ | glGenVertexArrays _ | glBindVertexArray _
  | glDeleteVertexArrays _ _ | glDeleteBuffers _ _ | glGetUniformLocation _ _
  | glUniformMatrix4fv _ _ _ _ | glDrawArrays _ _ _ => true
  | _ => false
  end.

(** The calls of a trace before [glewInit] has returned (all of them when
    it is never called). *)
Fixpoint before_glewInit (t : list Call) : list Call :=
  match t with
  | [] => []
  | glewInit :: _ => [glewInit]
  | c :: rest => c :: before_glewInit rest
  end.

(** A call that releases the window or GLFW. *)
Definition releases (c : Call) : bool :=
  match c with
  | glfwTerminate | glfwDestroyWindow _ => true
  | _ => false
  end.

(** What an upload of a matrix may carry in a run in world [w]: the
    identity, the one projection matrix, or the model matrix of a frame. *)
Definition uploads_known (w : World) (c : Call) : Prop :=
  match c with
  | glUniformMatrix4fv _ count transpose m =>
      count = 1 /\ transpose = GL_FALSE /\
      (m = Matrix4f_Identity \/ m = projection_matrix \/
       exists k, m = frame_model (angle_at w k))
  | _ => True
  end.
End Bindings.


Section Failure.
Context {A : Arith} {C : Cmath A}.
Variable w : World.

(** The effects of a start-up that fails, in the order of [main]. *)
Definition failure_calls : list Call :=
  if negb (glfwInit_returns w) then [glfwInit]
  else
    [ glfwInit;
      glfwSetErrorCallback;
      glfwWindowHint GLFW_CONTEXT_VERSION_MAJOR (HintInt 3);
      glfwWindowHint GLFW_CONTEXT_VERSION_MINOR (HintInt 2);
      glfwWindowHint GLFW_OPENGL_PROFILE GLFW_OPENGL_CORE_PROFILE;
      glfwWindowHint GLFW_OPENGL_FORWARD_COMPAT (HintInt GL_TRUE);
      glfwWindowHint GLFW_RESIZABLE (HintInt GL_FALSE);
      glfwCreateWindow kWindowWidth kWindowHeight "Hello Triangle" ]
    ++ match glfwCreateWindow_returns w with
       | None => [glfwTerminate]
       | Some window =>
           [ glfwMakeContextCurrent window;
             glfwSwapInterval 1;
             glfwSetKeyCallback window;
             glewExperimental_assign GL_TRUE;
             glewInit ]
           ++ if negb (glewInit_returns w =? GLEW_OK)
              then [ cerr ("Glew did not initialize properly!" ++ newline);
                     glfwTerminate ]
              else
                [ glfwGetFramebufferSize window;
                  glViewport 0 0 (fst (glfwGetFramebufferSize_returns w))
                                 (snd (glfwGetFramebufferSize_returns w));
                  LoadVertexShaderFromString vertex_shader_src;
                  LoadFragmentShaderFromString fragment_shader_src;
                  Create ]
                ++ (if fst (fst (Create_returns w)) then []
                    else [cout ("ERROR: " ++ snd (fst (Create_returns w))
                                ++ newline)])
                ++ [cerr ("ERROR: Could not create a shader program."
                          ++ newline)]
       end.
End Failure.


(** * Properties *)

Unset Implicit Arguments.

(** ** The transform library in every arithmetic *)

Section ClosedForms.
Context {A : Arith} {C : Cmath A}.

(** The general form writes eight coefficients of the identity; the four
    of its diagonal are among them. *)
Lemma ComputeProjectionMatrix_rows (left right top bottom near far : GLfloat) :
  ComputeProjectionMatrix left right top bottom near far =
  of_rows
    (mkV4 (to_float (dlit 2 *d to_double near /d to_double (right -f left)))
          (flit 0) ((right +f left) /f (right -f left)) (flit 0))
    (mkV4 (flit 0)
          (to_float (dlit 2 *d to_double near /d to_double (top -f bottom)))
          ((top +f bottom) /f (top -f bottom)) (flit 0))
    (mkV4 (flit 0) (flit 0) (fneg (far +f near) /f (far -f near))
          (to_float (dneg (dlit 2) *d to_double far *d to_double near
                     /d to_double (far -f near))))
    (mkV4 (flit 0) (flit 0) (fneg (flit 1)) (flit 0)).
Proof. reflexivity. Qed.

Lemma ComputeTranslation_rows (offset : Vector3f) :
  ComputeTranslation offset =
  of_rows (mkV4 (flit 1) (flit 0) (flit 0) (x offset))
          (mkV4 (flit 0) (flit 1) (flit 0) (y offset))
          (mkV4 (flit 0) (flit 0) (flit 1) (z offset))
          (mkV4 (flit 0) (flit 0) (flit 0) (flit 1)).
Proof. reflexivity. Qed.

Lemma ComputeProjectionMatrix_row3 (left right top bottom near far : GLfloat) :
  row (ComputeProjectionMatrix left right top bottom near far) I3 =
  mkV4 (flit 0) (flit 0) (fneg (flit 1)) (flit 0).
Proof. reflexivity. Qed.

(** The field-of-view form is the general form at the bounds it derives
    with its constant [pi = 3.1416f]. *)
Lemma ComputeProjectionMatrix_fov_unfold
  (field_of_view aspect_ratio near far : GLfloat) :
  let pi := flit 3.1416 in
  let top := to_float (to_double near *d
               tan (to_double ((pi /f flit 180) *f field_of_view *f flit 0.5))) in
  let bottom := fneg top in
  let right := top *f aspect_ratio in
  let left := fneg right in
  ComputeProjectionMatrix_fov field_of_view aspect_ratio near far =
  ComputeProjectionMatrix left right top bottom near far.
Proof. reflexivity. Qed.

(** The model matrix of a frame is the product translation x rotation. *)
Lemma frame_model_unfold (angle : GLfloat) :
  frame_model angle =
  mul (ComputeTranslation
         (mkV3 (flit 0) (flit 0)
               (to_float (sin (dlit 0.5 *d to_double angle) -d to_double (flit 1)))))
      (ComputeRotation Vector3f_UnitZ angle).
Proof. reflexivity. Qed.
End ClosedForms.

(** ** The model state *)

(** C10.  [SetPosition] replaces the position and leaves the orientation
    and the vertex data as they were; [SetOrientation] replaces the
    orientation and leaves the position and the vertex data as they were;
    [GetPosition] and [GetOrientation] return the stored vectors. *)
Theorem Model_setters_frame :
  forall (A : Arith) (this : Model) (v : Vector3f),
    (position_ (SetPosition this v) = v /\
     orientation_ (SetPosition this v) = orientation_ this /\
     vertices_ (SetPosition this v) = vertices_ this) /\
    (orientation_ (SetOrientation this v) = v /\
     position_ (SetOrientation this v) = position_ this /\
     vertices_ (SetOrientation this v) = vertices_ this) /\
    (GetPosition (SetPosition this v) = v /\
     GetOrientation (SetPosition this v) = GetOrientation this) /\
    (GetOrientation (SetOrientation this v) = v /\
     GetPosition (SetOrientation this v) = GetPosition this) /\
    (GetPosition this = position_ this /\
     GetOrientation this = orientation_ this).
Proof.
  intros A this v. destruct this as [o p vs].
  unfold SetPosition, SetOrientation, GetPosition, GetOrientation.
  cbn [position_ orientation_ vertices_].
  repeat split.
Qed.

(** ** The driver: effects of one frame, of the loop, of [main] *)

Section DriverFacts.
Context {A : Arith} {C : Cmath A}.
Variable w : World.

Lemma quiet_app (t u : list Call) : quiet t -> quiet u -> quiet (t ++ u).
Proof. unfold quiet. rewrite forallb_app. intros -> ->. reflexivity. Qed.

Lemma quiet_no_write (t : list Call) :
  quiet t -> existsb is_Model_write t = false.
Proof.
  unfold quiet. induction t as [| c t IH]; [reflexivity|].
  cbn [forallb existsb]. intros H. apply andb_prop in H. destruct H as [Hc Ht].
  rewrite (IH Ht). destruct (is_Model_write c); [discriminate Hc | reflexivity].
Qed.

Lemma deliver_spec (window : GLFWwindow) (events : list InputEvent) (s : State) :
  deliver window events s =
  (tt, {| trace := trace s ++ deliver_calls window events;
          close_flag := close_flag s || existsb closes events;
          frames := frames s |}).
Proof.
  revert s. induction events as [| e rest IH]; intros s.
  - destruct s as [t c k]. cbn [deliver deliver_calls existsb trace close_flag frames].
    unfold ret. rewrite app_nil_r, orb_false_r. reflexivity.
  - destruct e as [key scancode action mods |].
    + cbn [deliver deliver_calls existsb closes]. unfold KeyCallback, bind.
      destruct ((key =? GLFW_KEY_ESCAPE) && (action =? GLFW_PRESS)) eqn:E.
      * cbv [call set_close_flag trace close_flag frames]. rewrite IH.
        cbn [trace close_flag frames]. rewrite <- app_assoc, orb_true_r.
        reflexivity.
      * cbv [ret]. rewrite IH. reflexivity.
    + cbn [deliver deliver_calls existsb closes]. unfold bind.
      cbv [set_close_flag]. rewrite IH.
      cbn [trace close_flag frames]. rewrite orb_true_r. reflexivity.
Qed.

Lemma deliver_quiet (window : GLFWwindow) (events : list InputEvent) :
  quiet (deliver_calls window events).
Proof.
  induction events as [| e rest IH]; [reflexivity|].
  cbn [deliver_calls]. apply quiet_app; [| exact IH].
  destruct e; [destruct (closes _) |]; reflexivity.
Qed.

Lemma RenderScene_spec sp vao proj angle window (s : State) :
  RenderScene w sp vao proj angle window s =
  (tt, {| trace := trace s ++ RenderScene_calls w sp vao proj angle;
          close_flag := close_flag s;
          frames := frames s |}).
Proof.
  cbv [RenderScene ClearTheFrameBuffer bind call trace close_flag frames
       RenderScene_calls].
  rewrite <- !app_assoc. reflexivity.
Qed.

Lemma RenderScene_quiet sp vao proj angle :
  quiet (RenderScene_calls w sp vao proj angle).
Proof. reflexivity. Qed.

Lemma frame_spec sp vao proj window (s : State) :
  frame w sp vao proj window s =
  (tt, {| trace := trace s ++ frame_calls w sp vao proj window (frames s);
          close_flag := close_flag s || close_requested w (frames s);
          frames := S (frames s) |}).
Proof.
  unfold frame, PollEvents, bind.
  cbv [call get_frames next_frame]. cbn [trace close_flag frames].
  rewrite RenderScene_spec. cbn [trace close_flag frames].
  rewrite deliver_spec. cbn [trace close_flag frames].
  unfold frame_calls, close_requested, angle_at.
  rewrite <- !app_assoc. reflexivity.
Qed.

Lemma frame_quiet sp vao proj window k :
  quiet (frame_calls w sp vao proj window k).
Proof.
  unfold frame_calls.
  change (quiet ([glfwGetTime] ++
    RenderScene_calls w sp vao proj (angle_at w k) ++
    [glfwSwapBuffers window; glfwPollEvents] ++
    deliver_calls window (glfwPollEvents_delivers w k))).
  repeat apply quiet_app; try reflexivity. apply deliver_quiet.
Qed.

(** One test of the loop condition. *)
Lemma loop_step sp vao proj window (fuel : nat) (s : State) :
  loop w (S fuel) sp vao proj window s =
  let s1 := with_trace s (trace s ++ [glfwWindowShouldClose window]) in
  if close_flag s then (true, s1)
  else loop w fuel sp vao proj window
         {| trace := trace s1 ++ frame_calls w sp vao proj window (frames s);
            close_flag := close_requested w (frames s);
            frames := S (frames s) |}.
Proof.
  cbn [loop]. cbv [bind call get_close_flag ret with_trace].
  cbn [trace close_flag frames].
  destruct (close_flag s) eqn:F; [reflexivity|].
  rewrite frame_spec. cbn [trace close_flag frames orb]. reflexivity.
Qed.

(** The loop is left exactly when the close flag is up at one of its
    tests: it was up on entry, or a frame run before the last test
    raised it. *)
Lemma loop_spec sp vao proj window (fuel : nat) : forall s : State,
  exists t,
    trace (snd (loop w fuel sp vao proj window s)) = trace s ++ t /\
    quiet t /\
    (fst (loop w fuel sp vao proj window s) = true <->
     (0 < fuel)%nat /\ close_flag s = true \/
     exists k, (frames s <= k)%nat /\ (S k - frames s < fuel)%nat /\
               close_requested w k = true).
Proof.
  induction fuel as [| fuel IH]; intros s.
  - exists []. cbn [loop]. unfold ret. cbn [fst snd].
    rewrite app_nil_r. split; [reflexivity | split; [reflexivity |]].
    split; [discriminate|].
    intros [[H _] | [k [_ [H _]]]]; lia.
  - rewrite loop_step. cbv zeta. unfold with_trace.
    cbn [trace close_flag frames].
    destruct (close_flag s) eqn:F.
    + exists [glfwWindowShouldClose window]. cbn [fst snd trace].
      split; [reflexivity | split; [reflexivity |]].
      split; [| reflexivity].
      intros _. left. split; [lia | reflexivity].
    + match goal with |- context [loop w fuel sp vao proj window ?s1] =>
        destruct (IH s1) as [t [Ht [Hq Hb]]] end.
      exists (glfwWindowShouldClose window
              :: frame_calls w sp vao proj window (frames s) ++ t).
      rewrite Ht, Hb. cbn [trace close_flag frames].
      split; [| split].
      * rewrite <- !app_assoc. reflexivity.
      * change (quiet ([glfwWindowShouldClose window] ++
                  frame_calls w sp vao proj window (frames s) ++ t)).
        apply quiet_app; [reflexivity|].
        apply quiet_app; [apply frame_quiet | exact Hq].
      * split.
        -- intros [[Hf Hc] | [k [Hk [Hlt Hr]]]]; right.
           ++ exists (frames s). repeat split; [lia | lia | exact Hc].
           ++ exists k. repeat split; [lia | lia | exact Hr].
        -- intros [[_ H] | [k [Hk [Hlt Hr]]]]; [discriminate|].
           destruct (Nat.eq_dec k (frames s)) as [-> | Hne].
           ++ left. split; [lia | exact Hr].
           ++ right. exists k. repeat split; [lia | lia | exact Hr].
Qed.

Lemma startup_quiet (window : GLFWwindow) : quiet (startup_calls w window).
Proof.
  unfold startup_calls. repeat apply quiet_app; try reflexivity.
  destruct (fst (fst (Create_returns w))); reflexivity.
Qed.
End DriverFacts.

Section MainFacts.
Context {A : Arith} {C : Cmath A}.

Ltac open_world w :=
  destruct w as [init win glew [width height] [[created error_info_log] sp]
                 vao vbo location time events];
  cbn [glfwInit_returns glfwCreateWindow_returns glewInit_returns
       glfwGetFramebufferSize_returns Create_returns glGenVertexArrays_returns
       glGenBuffers_returns fst snd] in *.

Ltac run_main :=
  cbv [main SetWindowHints ConfigureViewPort SetVertexArrayObject
       SetVertexBufferObject bind call ret initial
       glfwInit_returns glfwCreateWindow_returns glewInit_returns
       glfwGetFramebufferSize_returns Create_returns glGenVertexArrays_returns
       glGenBuffers_returns negb trace close_flag frames fst snd];
  cbn [app].

(** After a successful start-up [main] runs the loop and, once the loop
    is left, tears down and returns 0. *)
Lemma main_started (w : World) (fuel : nat) (window : GLFWwindow) :
  glfwInit_returns w = true ->
  glfwCreateWindow_returns w = Some window ->
  glewInit_returns w = GLEW_OK ->
  shader_program_id (snd (Create_returns w)) <> 0 ->
  let r := loop w fuel (snd (Create_returns w)) (glGenVertexArrays_returns w)
             projection_matrix window (started w window) in
  main w fuel initial =
  if fst r
  then (Some 0, with_trace (snd r) (trace (snd r) ++ teardown w window))
  else (None, snd r).
Proof.
  intros Hi Hw Hg Hp. open_world w. subst init win glew.
  apply Z.eqb_neq in Hp.
  cbv zeta. unfold started, startup_calls, with_trace, teardown.
  cbn [glfwGetFramebufferSize_returns Create_returns glGenVertexArrays_returns
       glGenBuffers_returns fst snd].
  unfold main.
  cbn [glfwInit_returns glfwCreateWindow_returns glewInit_returns
       glfwGetFramebufferSize_returns Create_returns glGenVertexArrays_returns
       glGenBuffers_returns negb].
  rewrite Hp. change (GLEW_OK =? GLEW_OK) with true. cbn [negb].
  fold projection_matrix.
  cbv [SetWindowHints ConfigureViewPort SetVertexArrayObject
       SetVertexBufferObject bind call ret initial
       glfwInit_returns glfwCreateWindow_returns glewInit_returns
       glfwGetFramebufferSize_returns Create_returns glGenVertexArrays_returns
       glGenBuffers_returns trace close_flag frames].
  destruct created; cbn [negb app];
    match goal with |- context [loop ?w fuel sp ?v ?p window ?s] =>
      destruct (loop w fuel sp v p window s) as [[|] s1] end;
    cbn [fst snd trace close_flag frames]; rewrite <- ?app_assoc; reflexivity.
Qed.

(** [main] either fails to start and returns -1, or starts. *)
Lemma main_spec (w : World) (fuel : nat) :
  (init_failure w /\ fst (main w fuel initial) = Some (-1) /\
   quiet (trace (snd (main w fuel initial)))) \/
  (~ init_failure w /\
   exists window,
     glfwCreateWindow_returns w = Some window /\
     let r := loop w fuel (snd (Create_returns w)) (glGenVertexArrays_returns w)
                projection_matrix window (started w window) in
     main w fuel initial =
     if fst r
     then (Some 0, with_trace (snd r) (trace (snd r) ++ teardown w window))
     else (None, snd r)).
Proof.
  destruct (glfwInit_returns w) eqn:Hi.
  2:{ left. unfold init_failure. rewrite Hi. open_world w. subst init.
      run_main. repeat split; auto. }
  destruct (glfwCreateWindow_returns w) as [window |] eqn:Hw.
  2:{ left. unfold init_failure. rewrite Hw. open_world w. subst init win.
      run_main. repeat split; auto. }
  destruct (Z.eq_dec (glewInit_returns w) GLEW_OK) as [Hg | Hg].
  2:{ left. unfold init_failure. split; [auto|].
      open_world w. subst init win. apply Z.eqb_neq in Hg.
      unfold main.
      cbn [glfwInit_returns glfwCreateWindow_returns glewInit_returns].
      rewrite Hg. run_main. split; reflexivity. }
  destruct (Z.eq_dec (shader_program_id (snd (Create_returns w))) 0) as [Hp | Hp].
  - left. unfold init_failure. split; [auto|].
    open_world w. subst init win glew. apply Z.eqb_eq in Hp.
    unfold main.
    cbn [glfwInit_returns glfwCreateWindow_returns glewInit_returns
         glfwGetFramebufferSize_returns Create_returns].
    rewrite Hp. change (GLEW_OK =? GLEW_OK) with true.
    destruct created; run_main; split; reflexivity.
  - right. split.
    { intros [H | [H | [H | H]]]; congruence. }
    exists window. split; [reflexivity|].
    apply main_started; assumption.
Qed.

(** When the start-up succeeds, the loop is left, within the fuel, exactly
    when some frame before the last test delivered a closing event. *)
Lemma started_loop_left (w : World) (fuel : nat) (window : GLFWwindow) sp vao :
  fst (loop w fuel sp vao projection_matrix window (started w window)) = true <->
  exists k, (S k < fuel)%nat /\ close_requested w k = true.
Proof.
  destruct (loop_spec w sp vao projection_matrix window fuel (started w window))
    as [t [_ [_ Hb]]].
  rewrite Hb. unfold started. cbn [close_flag frames]. split.
  - intros [[_ H] | [k [_ [Hlt Hr]]]]; [discriminate|].
    exists k. split; [lia | exact Hr].
  - intros [k [Hlt Hr]]. right. exists k. repeat split; [lia | lia | exact Hr].
Qed.
End MainFacts.

(** C7.  [main] returns -1 for every failure of the start-up (GLFW does not
    initialize, no window, GLEW does not initialize, the shader program
    handle is zero); a value it returns is -1 after such a failure or 0
    after a closing event of the user was delivered, the loop was left and
    the cleaning up tasks were the last effects; and once a closing event
    is delivered, [main] does return 0. *)
Theorem main_exit_code :
  forall (A : Arith) (C : Cmath A) (w : World),
    (init_failure w -> forall fuel, fst (main w fuel initial) = Some (-1)) /\
    (forall fuel code,
       fst (main w fuel initial) = Some code ->
       code = -1 /\ init_failure w \/
       code = 0 /\ ~ init_failure w /\
       (exists k, (S k < fuel)%nat /\ close_requested w k = true) /\
       (exists window before,
          glfwCreateWindow_returns w = Some window /\
          trace (snd (main w fuel initial)) = before ++ teardown w window)) /\
    (~ init_failure w ->
     forall k fuel, close_requested w k = true -> (S k < fuel)%nat ->
       fst (main w fuel initial) = Some 0).
Proof.
  intros A C w. split; [| split].
  - intros Hf fuel.
    destruct (main_spec w fuel) as [[_ [H _]] | [Hn _]]; [exact H | contradiction].
  - intros fuel code Hc.
    destruct (main_spec w fuel) as [[Hf [H _]] | [Hn [window [Hw E]]]].
    + left. split; [congruence | exact Hf].
    + right. cbv zeta in E. rewrite E in Hc |- *.
      destruct (fst (loop w fuel _ _ _ window _)) eqn:L;
        cbn [fst snd] in Hc |- *; [| discriminate Hc].
      split; [congruence|]. split; [exact Hn|]. split.
      * apply started_loop_left in L. exact L.
      * exists window. eexists. split; [exact Hw | reflexivity].
  - intros Hn k fuel Hr Hlt.
    destruct (main_spec w fuel) as [[Hf _] | [_ [window [Hw E]]]]; [contradiction|].
    cbv zeta in E. rewrite E.
    assert (L : fst (loop w fuel (snd (Create_returns w))
                       (glGenVertexArrays_returns w) projection_matrix window
                       (started w window)) = true).
    { apply started_loop_left. exists k. split; assumption. }
    rewrite L. reflexivity.
Qed.

(** ** The render loop and the model state *)

Section NoModel.
Context {A : Arith} {C : Cmath A}.

Lemma main_quiet (w : World) (fuel : nat) :
  quiet (trace (snd (main w fuel initial))).
Proof.
  destruct (main_spec w fuel) as [[_ [_ H]] | [_ [window [_ E]]]]; [exact H|].
  cbv zeta in E. rewrite E.
  destruct (loop_spec w (snd (Create_returns w)) (glGenVertexArrays_returns w)
              projection_matrix window fuel (started w window))
    as [t [Ht [Hq _]]].
  assert (Q : quiet (trace (snd (loop w fuel (snd (Create_returns w))
                (glGenVertexArrays_returns w) projection_matrix window
                (started w window))))).
  { rewrite Ht. apply quiet_app; [apply startup_quiet | exact Hq]. }
  destruct (fst (loop w fuel _ _ _ window _)); cbn [snd]; [| exact Q].
  unfold with_trace. cbn [trace]. apply quiet_app; [exact Q | reflexivity].
Qed.
End NoModel.

(** C6, as the code has it.  No run of [main] constructs a [Model] or calls
    one of its setters, at start-up, in a frame or at teardown: the render
    loop holds no [Model], and what a frame does is determined by the
    services' answers alone. *)
Theorem render_loop_writes_no_Model :
  forall (A : Arith) (C : Cmath A) (w : World) (fuel : nat),
    existsb is_Model_write (trace (snd (main w fuel initial))) = false /\
    forall sp vao proj window s,
      snd (frame w sp vao proj window s) =
      {| trace := trace s ++ frame_calls w sp vao proj window (frames s);
         close_flag := close_flag s || close_requested w (frames s);
         frames := S (frames s) |} /\
      existsb is_Model_write (frame_calls w sp vao proj window (frames s)) = false.
Proof.
  intros A C w fuel. split.
  - apply quiet_no_write, main_quiet.
  - intros sp vao proj window s. rewrite frame_spec. split; [reflexivity|].
    apply quiet_no_write, frame_quiet.
Qed.

(** ** The transform library in exact arithmetic *)

Section ExactProperties.
Import Exact.
Local Open Scope R_scope.

Lemma xdiv_defined (u v : R) : v <> 0 -> xdiv (Some u) (Some v) = Some (u / v).
Proof.
  intros Hv. unfold xdiv.
  destruct (Req_dec_T v 0) as [E | _]; [contradiction | reflexivity].
Qed.

Lemma xdiv_by_zero (u v : R) : v = 0 -> xdiv (Some u) (Some v) = None.
Proof.
  intros Hv. unfold xdiv.
  destruct (Req_dec_T v 0) as [_ | N]; [reflexivity | contradiction].
Qed.

Lemma xtan_defined (u : R) : cos u <> 0 -> xtan (Some u) = Some (Rtrigo1.tan u).
Proof.
  intros H. unfold xtan.
  destruct (Req_dec_T (cos u) 0); [contradiction | reflexivity].
Qed.

Lemma mkV4_eq {T} (a b c d a' b' c' d' : T) :
  a = a' -> b = b' -> c = c' -> d = d' -> mkV4 a b c d = mkV4 a' b' c' d'.
Proof. congruence. Qed.

Lemma mkV3_eq {T} (a b c a' b' c' : T) :
  a = a' -> b = b' -> c = c' -> mkV3 a b c = mkV3 a' b' c'.
Proof. congruence. Qed.

Lemma Some_eq (u v : R) : u = v -> Some u = Some v.
Proof. congruence. Qed.

(** The operations of the arithmetic on finite operands; divisions and
    tangents are left for [xdiv_defined] and [xtan_defined]. *)
Ltac exact_arith :=
  cbv [to_float to_double int_to_float flit dlit fadd fsub fmul fdiv fneg
       dadd dsub dmul ddiv dneg sin tan sinf cosf arith cmath Q2R Qnum Qden];
  cbn [lift1 lift2].

Ltac eigen_unfold :=
  cbv [ComputeRotation ComputeTranslation AngleAxisf_matrix mul mul3 dot3 dot4
       transpose3 block33 set_block33 set3 upd3 get3 coeff coeff3 row col
       set_col upd4 get4 embed3 scale3 cwiseProduct homogeneous determinant3
       Matrix3f_Identity Matrix4f_Identity Vector3f_UnitZ fst snd
       x y z v0 v1 v2 v3].

(** Equality of two matrices of finite coefficients, coefficient by
    coefficient. *)
Ltac by_coefficients :=
  cbv [inj inj4 inj3 of_rows v0 v1 v2 v3 x y z];
  repeat (apply mkV4_eq || apply mkV3_eq); apply Some_eq.

Lemma all_finite_inj (m : Matrix4 R) : all_finite (inj m) = true.
Proof. reflexivity. Qed.

Lemma all_finite_coeff (m : Matrix4 xreal) (i j : Index4) :
  all_finite m = true -> finite (coeff m i j) = true.
Proof.
  unfold all_finite, all4. rewrite !andb_true_iff.
  destruct i, j; cbv [coeff get4]; tauto.
Qed.

(** C1.  In exact arithmetic, for near > 0, far > near, left <> right
    and top <> bottom the general form returns the matrix with (0,0) = 2 near / (right - left),
    (1,1) = 2 near / (top - bottom), (2,2) = -(far + near) / (far - near),
    (0,2) = (right + left) / (right - left),
    (1,2) = (top + bottom) / (top - bottom),
    (2,3) = -2 far near / (far - near), (3,2) = -1, (3,3) = 0 and zero
    everywhere else. *)
Theorem projection_closed_form (l r t b n f : R) :
  n > 0 -> f > n -> l <> r -> t <> b ->
  ComputeProjectionMatrix (Some l) (Some r) (Some t) (Some b) (Some n) (Some f) =
  inj (of_rows
         (mkV4 (2 * n / (r - l)) 0 ((r + l) / (r - l)) 0)
         (mkV4 0 (2 * n / (t - b)) ((t + b) / (t - b)) 0)
         (mkV4 0 0 (- (f + n) / (f - n)) (- 2 * f * n / (f - n)))
         (mkV4 0 0 (-1) 0)).
Proof.
  intros Hn Hf Hlr Htb.
  rewrite ComputeProjectionMatrix_rows. exact_arith.
  rewrite !xdiv_defined by lra.
  by_coefficients; field; lra.
Qed.

(** The closed form at the frustum of [main], with near = 1. *)
Lemma projection_closed_form_witness :
  ComputeProjectionMatrix (Some (-320)) (Some 320) (Some 240) (Some (-240))
    (Some 1) (Some 10) =
  inj (of_rows
         (mkV4 (2 * 1 / (320 - -320)) 0 ((320 + -320) / (320 - -320)) 0)
         (mkV4 0 (2 * 1 / (240 - -240)) ((240 + -240) / (240 - -240)) 0)
         (mkV4 0 0 (- (10 + 1) / (10 - 1)) (- 2 * 10 * 1 / (10 - 1)))
         (mkV4 0 0 (-1) 0)).
Proof. apply (projection_closed_form (-320) 320 240 (-240) 1 10); lra. Defined.

(** The same under the three conditions that the divisions need. *)
Lemma projection_defined (l r t b n f : R) :
  f <> n -> l <> r -> t <> b ->
  all_finite (ComputeProjectionMatrix (Some l) (Some r) (Some t) (Some b)
                (Some n) (Some f)) = true.
Proof.
  intros Hf Hlr Htb.
  rewrite ComputeProjectionMatrix_rows. exact_arith.
  rewrite !xdiv_defined by lra. reflexivity.
Qed.

(** C4, as the code has it.  For near < far and near > 0 the projection
    matrix is finite, that is no division of its construction has a zero
    denominator, exactly when left <> right and top <> bottom. *)
Theorem projection_finite_iff (l r t b n f : R) :
  n < f -> n > 0 ->
  (all_finite (ComputeProjectionMatrix (Some l) (Some r) (Some t) (Some b)
                 (Some n) (Some f)) = true
   <-> l <> r /\ t <> b).
Proof.
  intros Hnf Hn. split.
  - intros H. split; intros E.
    + apply (all_finite_coeff _ I0 I0) in H.
      rewrite ComputeProjectionMatrix_rows in H. revert H.
      cbv [coeff get4 of_rows v0 v1 v2 v3]. exact_arith.
      rewrite xdiv_by_zero by lra. discriminate.
    + apply (all_finite_coeff _ I1 I1) in H.
      rewrite ComputeProjectionMatrix_rows in H. revert H.
      cbv [coeff get4 of_rows v0 v1 v2 v3]. exact_arith.
      rewrite xdiv_by_zero by lra. discriminate.
  - intros [Hlr Htb]. apply projection_defined; lra.
Qed.

(** At the frustum of [main], with near = 1. *)
Lemma projection_finite_iff_witness :
  all_finite (ComputeProjectionMatrix (Some (-320)) (Some 320) (Some 240)
                (Some (-240)) (Some 1) (Some 10)) = true
  <-> -320 <> 320 /\ 240 <> -240.
Proof. apply (projection_finite_iff (-320) 320 240 (-240) 1 10); lra. Defined.

(** *** The field-of-view form *)

Lemma PI_lt_31416 : PI < 3.1416.
Proof.
  pose proof (PI_2_3_7_ineq 3) as [_ H].
  unfold sum_f_R0, tg_alt, PI_2_3_7_tg, Ratan_seq in H. simpl in H. lra.
Qed.

(** The angle that the code computes for 90 degrees lies beyond pi / 4. *)
Lemma tan_7854 : PI / 4 < 0.7854 < PI / 2 /\ 1 < Rtrigo1.tan 0.7854.
Proof.
  pose proof PI_lt_31416. pose proof PI2_1.
  assert (B : PI / 4 < 0.7854 < PI / 2) by lra.
  split; [exact B|]. rewrite <- tan_PI4. apply tan_increasing; lra.
Qed.

(** C2 fails as stated: at 90 degrees, aspect ratio 1, near 1 and far 2 the
    field-of-view form is not the general form at the bounds derived with
    the number pi. *)
Lemma fov_form_not_pi :
  (0 < 90 < 180 /\ 1 > 0 /\ 0 < 1 < 2) /\
  ComputeProjectionMatrix_fov (Some 90) (Some 1) (Some 1) (Some 2)
  <> fov_form_spec 90 1 1 2.
Proof.
  split; [lra|]. intros E.
  apply (f_equal (fun m => coeff m I1 I1)) in E. revert E.
  unfold fov_form_spec, ComputeProjectionMatrix_fov.
  rewrite !ComputeProjectionMatrix_rows.
  cbv [coeff get4 of_rows v0 v1 v2 v3]. exact_arith.
  rewrite (xdiv_defined _ (180 * / 1)) by lra. cbn [lift1 lift2].
  replace (31416 * / 10000 / (180 * / 1) * 90 * (5 * / 10)) with 0.7854 by lra.
  replace (PI / 180 * 90 / 2) with (PI / 4) by lra.
  destruct tan_7854 as [B T]. rewrite tan_PI4.
  rewrite xtan_defined by (apply Rgt_not_eq, cos_gt_0; lra). cbn [lift1 lift2].
  rewrite !xdiv_defined by lra.
  intros E. injection E as E.
  apply (f_equal (fun u => u * (1 * Rtrigo1.tan 0.7854 - - (1 * Rtrigo1.tan 0.7854)))) in E.
  field_simplify in E; lra.
Qed.

(** C2, as the code has it.  For 0 < field_of_view < 180, aspect_ratio > 0
    and 0 < near < far, at an angle where the tangent is defined, the
    field-of-view form derives top = near tan(3.1416 / 180 field_of_view 0.5),
    bottom = -top, right = top aspect_ratio, left = -right, with the
    constant 3.1416 of the code in the place of pi, and returns the general
    form at these bounds. *)
Theorem fov_form_delegates (field_of_view aspect_ratio near far : R) :
  0 < field_of_view < 180 -> aspect_ratio > 0 -> 0 < near < far ->
  cos (3.1416 / 180 * field_of_view * 0.5) <> 0 ->
  let top := near * Rtrigo1.tan (3.1416 / 180 * field_of_view * 0.5) in
  let bottom := - top in
  let right := top * aspect_ratio in
  let left := - right in
  ComputeProjectionMatrix_fov (Some field_of_view) (Some aspect_ratio)
    (Some near) (Some far) =
  ComputeProjectionMatrix (Some left) (Some right) (Some top) (Some bottom)
    (Some near) (Some far).
Proof.
  intros _ _ _ Hc. cbv zeta. rewrite ComputeProjectionMatrix_fov_unfold. cbv zeta.
  exact_arith.
  rewrite (xdiv_defined _ (180 * / 1)) by lra. cbn [lift1 lift2].
  replace (31416 * / 10000 / (180 * / 1) * field_of_view * (5 * / 10))
    with (3.1416 / 180 * field_of_view * 0.5) by lra.
  rewrite xtan_defined by exact Hc. reflexivity.
Qed.

(** At 90 degrees, aspect ratio 1, near 1 and far 2. *)
Lemma fov_form_delegates_witness :
  ComputeProjectionMatrix_fov (Some 90) (Some 1) (Some 1) (Some 2) =
  ComputeProjectionMatrix
    (Some (- (1 * Rtrigo1.tan (3.1416 / 180 * 90 * 0.5) * 1)))
    (Some (1 * Rtrigo1.tan (3.1416 / 180 * 90 * 0.5) * 1))
    (Some (1 * Rtrigo1.tan (3.1416 / 180 * 90 * 0.5)))
    (Some (- (1 * Rtrigo1.tan (3.1416 / 180 * 90 * 0.5))))
    (Some 1) (Some 2).
Proof.
  apply (fov_form_delegates 90 1 1 2); try lra.
  apply Rgt_not_eq, cos_gt_0; destruct tan_7854 as [B _]; lra.
Defined.

(** *** Rotation *)




(** *** The model matrix of a frame *)

Lemma frame_model_exact (a : R) :
  frame_model (Some a) =
  inj (of_rows (mkV4 (cos a) (- Rtrigo_def.sin a) 0 0)
               (mkV4 (Rtrigo_def.sin a) (cos a) 0 0)
               (mkV4 0 0 1 (Rtrigo_def.sin (0.5 * a) - 1))
               (mkV4 0 0 0 1)).
Proof.
  unfold frame_model. eigen_unfold. exact_arith. rewrite ?Rinv_1.
  by_coefficients; ring.
Qed.

(** C3.  In every frame the matrix that [RenderScene] prints and uploads
    as the model matrix is the product of the translation by
    (0, 0, sin(0.5 angle) - 1) with the rotation about the z axis by the
    angle, translation on the left; at angle 0 its rotation block is the
    identity and its translation column is (0, 0, -1, 1). *)
Theorem model_matrix_per_frame :
  (forall (A : Arith) (C : Cmath A) (w : World) sp vao proj angle window s,
     let model :=
       mul (ComputeTranslation
              (mkV3 (flit 0) (flit 0)
                 (to_float (sin (dlit 0.5 *d to_double angle)
                            -d to_double (flit 1)))))
           (ComputeRotation Vector3f_UnitZ angle) in
     let effects := trace (snd (RenderScene w sp vao proj angle window s)) in
     In (cout_matrix model) effects /\
     In (glUniformMatrix4fv
           (glGetUniformLocation_returns w (shader_program_id sp) "model")
           1%Z GL_FALSE model) effects) /\
  (forall a : R,
     frame_model (Some a) =
     inj (of_rows (mkV4 (cos a) (- Rtrigo_def.sin a) 0 0)
                  (mkV4 (Rtrigo_def.sin a) (cos a) 0 0)
                  (mkV4 0 0 1 (Rtrigo_def.sin (0.5 * a) - 1))
                  (mkV4 0 0 0 1))) /\
  block33 (frame_model (Some 0)) =
    inj3 (mkV3 (mkV3 1 0 0) (mkV3 0 1 0) (mkV3 0 0 1)) /\
  col (frame_model (Some 0)) I3 = inj4 (mkV4 0 0 (-1) 1).
Proof.
  split; [| split; [exact frame_model_exact | split]].
  - intros A C w sp vao proj angle window s. cbv zeta.
    rewrite RenderScene_spec. cbn [snd trace].
    rewrite <- frame_model_unfold. unfold RenderScene_calls.
    split; apply in_or_app; right; cbn [In]; tauto.
  - rewrite frame_model_exact. cbv [block33 coeff get4 of_rows inj inj4 v0 v1 v2 v3].
    rewrite sin_0, cos_0. by_coefficients; lra.
  - rewrite frame_model_exact. cbv [col get4 of_rows inj inj4 v0 v1 v2 v3].
    replace (0.5 * 0) with 0 by lra. rewrite sin_0. by_coefficients; lra.
Qed.

End ExactProperties.

(** ** Two runs *)

Section Runs.
Import Exact.

(** C6 fails as stated: the run in which the user presses Escape during the
    first frame goes through one complete frame and returns 0, and neither
    this frame nor the rest of the run writes to a [Model]. *)
Lemma frame_without_Model_write :
  let r := main world_escape 2 initial in
  let sp := {| shader_program_id := 3 |} in
  fst r = Some 0 /\
  trace (snd r) =
    startup_calls world_escape 1
    ++ glfwWindowShouldClose 1
       :: frame_calls world_escape sp 1 projection_matrix 1 0
    ++ glfwWindowShouldClose 1 :: teardown world_escape 1 /\
  existsb is_Model_write
    (frame_calls world_escape sp 1 projection_matrix 1 0) = false /\
  existsb is_Model_write (trace (snd r)) = false.
Proof.
  cbv zeta.
  assert (E : main world_escape 2 initial =
    (Some 0,
     {| trace := startup_calls world_escape 1
          ++ glfwWindowShouldClose 1
             :: frame_calls world_escape {| shader_program_id := 3 |} 1
                  projection_matrix 1 0
          ++ glfwWindowShouldClose 1 :: teardown world_escape 1;
        close_flag := true;
        frames := 1 |})).
  { rewrite (main_started world_escape 2 1)
      by (reflexivity || discriminate).
    cbv zeta. cbn [Create_returns glGenVertexArrays_returns world_escape snd].
    rewrite !loop_step. cbv zeta. unfold with_trace, started.
    cbn [trace close_flag frames].
    change (close_requested world_escape 0) with true. cbn [fst snd trace].
    rewrite <- !app_assoc. reflexivity. }
  split; [rewrite E; reflexivity|].
  split; [rewrite E; reflexivity|].
  split.
  - apply quiet_no_write, frame_quiet.
  - apply quiet_no_write, main_quiet.
Qed.

(** A run in which GLFW does not start, and the run of one frame. *)
Lemma main_exit_code_witness :
  (forall fuel, fst (main world_no_glfw fuel initial) = Some (-1)) /\
  fst (main world_escape 2 initial) = Some 0.
Proof.
  split.
  - apply (proj1 (main_exit_code arith cmath world_no_glfw)).
    left. reflexivity.
  - apply (proj2 (proj2 (main_exit_code arith cmath world_escape))) with (k := 0%nat).
    + unfold init_failure. cbn [world_escape glfwInit_returns
        glfwCreateWindow_returns glewInit_returns Create_returns snd
        shader_program_id].
      intros [H | [H | [H | H]]]; try discriminate H. apply H. reflexivity.
    + reflexivity.
    + apply le_n.
Defined.
End Runs.

(** ** The projection matrix in IEEE arithmetic *)

Section IEEEProperties.
Import IEEE.

(** The matrix that [main] prints: 2 * 0.1 / 640, 2 * 0.1 / 480,
    -10.1 / 9.9 and -2 / 9.9 after rounding, and the last row 0 0 -1 0. *)
Lemma projection_matrix_value :
  projection_matrix =
  of_rows
    (mkV4 (S754_finite false 10737418 (-35)) (S754_zero false)
          (S754_zero false) (S754_zero false))
    (mkV4 (S754_zero false) (S754_finite false 14316558 (-35))
          (S754_zero false) (S754_zero false))
    (mkV4 (S754_zero false) (S754_zero false)
          (S754_finite true 8558075 (-23)) (S754_finite true 13557347 (-26)))
    (mkV4 (S754_zero false) (S754_zero false)
          (S754_finite true 8388608 (-23)) (S754_zero false)).
Proof. vm_compute. reflexivity. Qed.

(** With left = right the first row holds an infinity and a NaN. *)
Lemma projection_infinite :
  let f := int_to_float in
  let m := ComputeProjectionMatrix (f 0) (f 0) (f 1) (f (-1)) (f 1) (f 2) in
  (SFltb (f 1) (f 2) = true /\ SFltb (f 0) (f 1) = true) /\
  coeff m I0 I0 = S754_infinity false /\
  coeff m I0 I2 = S754_nan /\
  all_finite m = false.
Proof. vm_compute. repeat split. Qed.

(** Rounding and overflow are a second source of non-finite coefficients,
    which the exact arithmetic does not have: with near = 2^127 and
    far = 1.5 * 2^127 the sum far + near exceeds the largest [float]. *)
Lemma projection_overflow :
  let f := int_to_float in
  let near := S754_finite false 8388608 104 in
  let far := S754_finite false 12582912 104 in
  let m := ComputeProjectionMatrix (f (-1)) (f 1) (f 1) (f (-1)) near far in
  (valid_binary prec32 emax32 near = true /\
   valid_binary prec32 emax32 far = true /\
   SFltb near far = true /\ SFltb (f 0) near = true) /\
  coeff m I2 I2 = S754_infinity true.
Proof. vm_compute. repeat split. Qed.
End IEEEProperties.

(** C4 fails as stated: with left = right = 0, top = 1, bottom = -1,
    near = 1 and far = 2 the inputs are finite, near < far and near > 0, and
    the coefficient (0,0) is a division by zero: non-finite in exact
    arithmetic, an infinity in IEEE arithmetic. *)
Lemma projection_division_by_zero :
  (let m := @ComputeProjectionMatrix Exact.arith
              (Some 0%R) (Some 0%R) (Some 1%R) (Some (-1)%R) (Some 1%R) (Some 2%R) in
   (1 < 2 /\ 1 > 0)%R /\ coeff m I0 I0 = None /\ Exact.all_finite m = false) /\
  (let f := @int_to_float IEEE.arith in
   let m := @ComputeProjectionMatrix IEEE.arith
              (f 0) (f 0) (f 1) (f (-1)) (f 1) (f 2) in
   forallb IEEE.finite [f 0; f 0; f 1; f (-1); f 1; f 2] = true /\
   (SFltb (f 1) (f 2) = true /\ SFltb (f 0) (f 1) = true) /\
   coeff m I0 I0 = S754_infinity false /\ IEEE.all_finite m = false).
Proof.
  split.
  - cbv zeta. rewrite ComputeProjectionMatrix_rows.
    cbv [to_float to_double flit dlit fadd fsub fmul fdiv fneg dmul ddiv dneg
         Exact.arith Q2R Qnum Qden].
    cbn [Exact.lift1 Exact.lift2].
    rewrite !(xdiv_by_zero _ (0 - 0)%R) by lra.
    repeat split; lra.
  - vm_compute. repeat split.
Qed.

(** C5.  The last row of every projection matrix, of the general form and
    of the field-of-view form, for all arguments and in every arithmetic,
    is 0 0 -1 0. *)
Theorem projection_last_row :
  (forall (A : Arith) (left right top bottom near far : GLfloat),
     row (ComputeProjectionMatrix left right top bottom near far) I3 =
     mkV4 (flit 0) (flit 0) (fneg (flit 1)) (flit 0)) /\
  (forall (A : Arith) (C : Cmath A) (field_of_view aspect_ratio near far : GLfloat),
     row (ComputeProjectionMatrix_fov field_of_view aspect_ratio near far) I3 =
     mkV4 (flit 0) (flit 0) (fneg (flit 1)) (flit 0)) /\
  @mkV4 (@GLfloat IEEE.arith) (flit 0) (flit 0) (fneg (flit 1)) (flit 0) =
    mkV4 (S754_zero false) (S754_zero false) (S754_finite true 8388608 (-23))
         (S754_zero false) /\
  @mkV4 (@GLfloat Exact.arith) (flit 0) (flit 0) (fneg (flit 1)) (flit 0) =
    mkV4 (Some 0%R) (Some 0%R) (Some (-1)%R) (Some 0%R).
Proof.
  split; [| split; [| split]].
  - intros A left right top bottom near far. apply ComputeProjectionMatrix_row3.
  - intros A C field_of_view aspect_ratio near far.
    rewrite ComputeProjectionMatrix_fov_unfold. cbv zeta.
    apply ComputeProjectionMatrix_row3.
  - vm_compute. reflexivity.
  - cbv [flit fneg Exact.arith Exact.lift1 Q2R Qnum Qden].
    apply mkV4_eq; apply Some_eq; lra.
Qed.

(** * Further properties *)

(** ** Translations, rotations and projections in exact arithmetic *)

Section MoreExactProperties.
Import Exact.
Local Open Scope R_scope.

Ltac exact_arith :=
  cbv [to_float to_double int_to_float flit dlit fadd fsub fmul fdiv fneg
       dadd dsub dmul ddiv dneg sin tan sinf cosf arith cmath Q2R Qnum Qden];
  cbn [lift1 lift2].

Ltac eigen_unfold :=
  cbv [ComputeRotation ComputeTranslation AngleAxisf_matrix mul mul3 dot3 dot4
       transpose3 block33 set_block33 set3 upd3 get3 coeff coeff3 row col
       set_col upd4 get4 embed3 scale3 cwiseProduct homogeneous determinant3
       add3 mulv vertex_shader
       Matrix3f_Identity Matrix4f_Identity Vector3f_UnitZ fst snd
       x y z v0 v1 v2 v3].

Ltac by_coefficients :=
  cbv [inj inj4 inj3 of_rows v0 v1 v2 v3 x y z];
  repeat (apply mkV4_eq || apply mkV3_eq); apply Some_eq.

(** The general form under the conditions that its divisions need. *)
Lemma projection_defined_rows (l r t b n f : R) :
  f <> n -> l <> r -> t <> b ->
  ComputeProjectionMatrix (Some l) (Some r) (Some t) (Some b) (Some n) (Some f) =
  inj (of_rows
         (mkV4 (2 * n / (r - l)) 0 ((r + l) / (r - l)) 0)
         (mkV4 0 (2 * n / (t - b)) ((t + b) / (t - b)) 0)
         (mkV4 0 0 (- (f + n) / (f - n)) (- 2 * f * n / (f - n)))
         (mkV4 0 0 (-1) 0)).
Proof.
  intros Hf Hlr Htb.
  rewrite ComputeProjectionMatrix_rows. exact_arith.
  rewrite !xdiv_defined by lra.
  by_coefficients; field; lra.
Qed.

(** X1.  Translations compose by adding their offsets. *)
Theorem translation_compose (ux uy uz vx vy vz : R) :
  mul (ComputeTranslation (mkV3 (Some ux) (Some uy) (Some uz)))
      (ComputeTranslation (mkV3 (Some vx) (Some vy) (Some vz))) =
  ComputeTranslation
    (add3 (mkV3 (Some ux) (Some uy) (Some uz)) (mkV3 (Some vx) (Some vy) (Some vz))).
Proof.
  eigen_unfold. exact_arith. rewrite ?Rinv_1. by_coefficients; ring.
Qed.

(** X2.  The rotation by the angle 0 is the identity, whatever the axis,
    the zero vector included. *)
Theorem rotation_by_zero (ax ay az : R) :
  ComputeRotation (mkV3 (Some ax) (Some ay) (Some az)) (Some 0) =
  Matrix4f_Identity.
Proof.
  eigen_unfold. exact_arith. rewrite sin_0, cos_0, ?Rinv_1.
  by_coefficients; ring.
Qed.

(** X3.  Rotations about one unit axis compose by adding their angles. *)
Theorem rotation_compose (ax ay az a b : R) :
  ax * ax + ay * ay + az * az = 1 ->
  mul (ComputeRotation (mkV3 (Some ax) (Some ay) (Some az)) (Some a))
      (ComputeRotation (mkV3 (Some ax) (Some ay) (Some az)) (Some b)) =
  ComputeRotation (mkV3 (Some ax) (Some ay) (Some az)) (Some (a + b)).
Proof.
  intros Hu.
  eigen_unfold. exact_arith. rewrite sin_plus, cos_plus, ?Rinv_1.
  pose proof (sin2_cos2 a) as Ha. pose proof (sin2_cos2 b) as Hb.
  unfold Rsqr in Ha, Hb.
  by_coefficients; nsatz.
Qed.

Lemma rotation_compose_witness :
  mul (ComputeRotation (mkV3 (Some 0) (Some 0) (Some 1)) (Some 1))
      (ComputeRotation (mkV3 (Some 0) (Some 0) (Some 1)) (Some 2)) =
  ComputeRotation (mkV3 (Some 0) (Some 0) (Some 1)) (Some (1 + 2)).
Proof. apply (rotation_compose 0 0 1 1 2). lra. Defined.

(** X4.  For every axis, unit or not, the rotation block for the opposite
    angle is the transpose of the block for the angle, and turning about
    the opposite axis is turning by the opposite angle. *)
Theorem rotation_opposite (ax ay az a : R) :
  block33 (ComputeRotation (mkV3 (Some ax) (Some ay) (Some az)) (Some (- a))) =
  transpose3
    (block33 (ComputeRotation (mkV3 (Some ax) (Some ay) (Some az)) (Some a))) /\
  ComputeRotation (mkV3 (Some (- ax)) (Some (- ay)) (Some (- az))) (Some a) =
  ComputeRotation (mkV3 (Some ax) (Some ay) (Some az)) (Some (- a)).
Proof.
  split; eigen_unfold; exact_arith; rewrite sin_neg, cos_neg, ?Rinv_1;
    by_coefficients; ring.
Qed.

(** X5.  A rotation leaves the points of its unit axis where they are. *)
Theorem rotation_fixes_axis (ax ay az a : R) :
  ax * ax + ay * ay + az * az = 1 ->
  mulv (ComputeRotation (mkV3 (Some ax) (Some ay) (Some az)) (Some a))
       (mkV4 (Some ax) (Some ay) (Some az) (Some 1)) =
  mkV4 (Some ax) (Some ay) (Some az) (Some 1).
Proof.
  intros Hu. eigen_unfold. exact_arith. rewrite ?Rinv_1.
  by_coefficients; nsatz.
Qed.

Lemma rotation_fixes_axis_witness :
  mulv (ComputeRotation (mkV3 (Some 0) (Some 0) (Some 1)) (Some 1))
       (mkV4 (Some 0) (Some 0) (Some 1) (Some 1)) =
  mkV4 (Some 0) (Some 0) (Some 1) (Some 1).
Proof. apply (rotation_fixes_axis 0 0 1 1). lra. Defined.

(** *** The projection *)

Lemma PI_gt_31415 : 3.1415 < PI.
Proof.
  pose proof (PI_2_3_7_ineq 3) as [H _].
  unfold sum_f_R0, tg_alt, PI_2_3_7_tg, Ratan_seq in H. simpl in H. lra.
Qed.

(** Up to 179.99 degrees the angle of the field-of-view form stays below
    pi / 2. *)
Lemma fov_angle_bounds (field_of_view : R) :
  0 < field_of_view <= 179.99 ->
  0 < 3.1416 / 180 * field_of_view * 0.5 < PI / 2.
Proof. pose proof PI_gt_31415. intros [H1 H2]. split; lra. Qed.

(** X6.  Up to 179.99 degrees the field-of-view form is the symmetric
    perspective matrix: with t = tan(3.1416 / 180 field_of_view 0.5) > 0,
    (0,0) = 1 / (aspect_ratio t), (1,1) = 1 / t, both independent of near,
    (0,2) = (1,2) = 0, and the third and fourth rows as in the general
    form. *)
Theorem fov_form_closed_form (field_of_view aspect_ratio near far : R) :
  0 < field_of_view <= 179.99 -> aspect_ratio > 0 -> 0 < near < far ->
  let t := Rtrigo1.tan (3.1416 / 180 * field_of_view * 0.5) in
  0 < t /\
  ComputeProjectionMatrix_fov (Some field_of_view) (Some aspect_ratio)
    (Some near) (Some far) =
  inj (of_rows
         (mkV4 (1 / (aspect_ratio * t)) 0 0 0)
         (mkV4 0 (1 / t) 0 0)
         (mkV4 0 0 (- (far + near) / (far - near))
               (- 2 * far * near / (far - near)))
         (mkV4 0 0 (-1) 0)).
Proof.
  intros Hfov Ha Hn. cbv zeta.
  pose proof (fov_angle_bounds field_of_view Hfov) as Hb.
  assert (Hc : cos (3.1416 / 180 * field_of_view * 0.5) <> 0)
    by (apply Rgt_not_eq, cos_gt_0; lra).
  assert (Ht : 0 < Rtrigo1.tan (3.1416 / 180 * field_of_view * 0.5))
    by (apply tan_gt_0; lra).
  split; [exact Ht|].
  remember (Rtrigo1.tan (3.1416 / 180 * field_of_view * 0.5)) as t eqn:Et.
  rewrite ComputeProjectionMatrix_fov_unfold. cbv zeta.
  rewrite ComputeProjectionMatrix_rows. exact_arith.
  rewrite (xdiv_defined _ (180 * / 1)) by lra. cbn [lift1 lift2].
  replace (31416 * / 10000 / (180 * / 1) * field_of_view * (5 * / 10))
    with (3.1416 / 180 * field_of_view * 0.5) by lra.
  rewrite xtan_defined by exact Hc. rewrite <- Et.
  cbn [lift1 lift2].
  assert (Hnt : 0 < near * t) by (apply Rmult_lt_0_compat; lra).
  assert (Hnta : 0 < near * t * aspect_ratio) by (apply Rmult_lt_0_compat; lra).
  rewrite !xdiv_defined by lra.
  by_coefficients; field; lra.
Qed.

Lemma fov_form_closed_form_witness :
  0 < Rtrigo1.tan (3.1416 / 180 * 90 * 0.5) /\
  ComputeProjectionMatrix_fov (Some 90) (Some 1) (Some 1) (Some 2) =
  inj (of_rows
         (mkV4 (1 / (1 * Rtrigo1.tan (3.1416 / 180 * 90 * 0.5))) 0 0 0)
         (mkV4 0 (1 / Rtrigo1.tan (3.1416 / 180 * 90 * 0.5)) 0 0)
         (mkV4 0 0 (- (2 + 1) / (2 - 1)) (- 2 * 2 * 1 / (2 - 1)))
         (mkV4 0 0 (-1) 0)).
Proof. apply (fov_form_closed_form 90 1 1 2); lra. Defined.

(** X7.  The projection sends the near plane to depth -w and the far plane
    to depth +w: a point at distance near in front of the camera gets
    z = -near and w = near, a point at distance far gets z = far and
    w = far. *)
Theorem projection_planes (l r t b n f px py : R) :
  n > 0 -> f > n -> l <> r -> t <> b ->
  let P := ComputeProjectionMatrix (Some l) (Some r) (Some t) (Some b)
             (Some n) (Some f) in
  let at_near := mulv P (mkV4 (Some px) (Some py) (Some (- n)) (Some 1)) in
  let at_far := mulv P (mkV4 (Some px) (Some py) (Some (- f)) (Some 1)) in
  (v2 at_near = Some (- n) /\ v3 at_near = Some n) /\
  (v2 at_far = Some f /\ v3 at_far = Some f).
Proof.
  intros Hn Hf Hlr Htb. cbv zeta.
  rewrite ComputeProjectionMatrix_rows.
  cbv [mulv dot4 row coeff get4 of_rows v0 v1 v2 v3]. exact_arith.
  rewrite !xdiv_defined by lra. cbn [lift1 lift2].
  repeat split; apply Some_eq; field; lra.
Qed.

Lemma projection_planes_witness :
  let P := ComputeProjectionMatrix (Some (-320)) (Some 320) (Some 240)
             (Some (-240)) (Some 1) (Some 10) in
  let at_near := mulv P (mkV4 (Some 3) (Some 4) (Some (- 1)) (Some 1)) in
  let at_far := mulv P (mkV4 (Some 3) (Some 4) (Some (- 10)) (Some 1)) in
  (v2 at_near = Some (- 1) /\ v3 at_near = Some 1) /\
  (v2 at_far = Some 10 /\ v3 at_far = Some 10).
Proof. apply (projection_planes (-320) 320 240 (-240) 1 10 3 4); lra. Defined.

(** *** The frame *)

(** X8.  In every frame the model matrix moves the object along the z axis
    only, by a depth between -2 and 0. *)
Theorem frame_depth_range (a : R) :
  exists d : R,
    col (frame_model (Some a)) I3 = inj4 (mkV4 0 0 d 1) /\ -2 <= d <= 0.
Proof.
  exists (Rtrigo_def.sin (0.5 * a) - 1). split.
  - rewrite frame_model_exact. reflexivity.
  - pose proof (SIN_bound (0.5 * a)) as [H1 H2]. lra.
Qed.

(** X9.  With the identity as view matrix, as [RenderScene] uploads it, the
    vertex shader applies the model matrix and then the projection. *)
Theorem vertex_shader_composes (P M : Matrix4 R) (px py pz : R) :
  vertex_shader (inj M) Matrix4f_Identity (inj P)
    (mkV3 (Some px) (Some py) (Some pz)) =
  mulv (inj P) (mulv (inj M) (mkV4 (Some px) (Some py) (Some pz) (Some 1))).
Proof.
  destruct P as [[p00 p10 p20 p30] [p01 p11 p21 p31] [p02 p12 p22 p32]
                 [p03 p13 p23 p33]].
  destruct M as [[m00 m10 m20 m30] [m01 m11 m21 m31] [m02 m12 m22 m32]
                 [m03 m13 m23 m33]].
  cbv [inj inj4]. eigen_unfold. exact_arith. rewrite ?Rinv_1.
  by_coefficients; ring.
Qed.

(** X10.  For a vertex at (px, py, pz) in the frame of angle a, the w
    coordinate of [gl_Position] is 1 - sin(0.5 a) - pz, for every frustum:
    for the triangle, whose vertices have pz = 0, it lies between 0 and 2
    and is 0 where sin(0.5 a) = 1. *)
Theorem vertex_shader_w (l r t b n f a px py pz : R) :
  n > 0 -> f > n -> l <> r -> t <> b ->
  v3 (vertex_shader (frame_model (Some a)) Matrix4f_Identity
        (ComputeProjectionMatrix (Some l) (Some r) (Some t) (Some b)
           (Some n) (Some f))
        (mkV3 (Some px) (Some py) (Some pz))) =
  Some (1 - Rtrigo_def.sin (0.5 * a) - pz) /\
  0 <= 1 - Rtrigo_def.sin (0.5 * a) <= 2.
Proof.
  intros Hn Hf Hlr Htb. split.
  - rewrite frame_model_exact, (projection_defined_rows l r t b n f) by lra.
    cbv [inj inj4]. eigen_unfold. exact_arith. rewrite ?Rinv_1.
    apply Some_eq. cbv [of_rows v0 v1 v2 v3]. ring.
  - pose proof (SIN_bound (0.5 * a)) as [H1 H2]. lra.
Qed.
End MoreExactProperties.

(** ** The unguarded divisions in IEEE arithmetic *)

Section MoreIEEEProperties.
Import IEEE.

(** In binary32 a number minus itself is a zero or a NaN. *)
Lemma SFsub_diag (a : spec_float) :
  SFsub prec32 emax32 a a = S754_nan \/
  exists s, SFsub prec32 emax32 a a = S754_zero s.
Proof.
  destruct a as [s | s | | s m e].
  - right. exists false. destruct s; reflexivity.
  - left. destruct s; reflexivity.
  - left. reflexivity.
  - right. exists false. unfold SFsub. rewrite Z.sub_diag. reflexivity.
Qed.

(** A quotient by a zero or by a NaN is not finite. *)
Lemma SFdiv_by_zero (a d : spec_float) :
  d = S754_nan \/ (exists s, d = S754_zero s) ->
  finite (SFdiv prec32 emax32 a d) = false.
Proof.
  intros [-> | [s ->]]; destruct a; reflexivity.
Qed.

(** X11.  In binary32, for all arguments whatsoever, the general form with
    left = right has a non-finite coefficient (0,2), and with top = bottom
    a non-finite coefficient (1,2): nothing guards the divisions. *)
Theorem projection_degenerate_frustum :
  (forall a top bottom near far : binary32,
     finite (coeff (ComputeProjectionMatrix a a top bottom near far) I0 I2)
     = false) /\
  (forall left right a near far : binary32,
     finite (coeff (ComputeProjectionMatrix left right a a near far) I1 I2)
     = false).
Proof.
  split; intros; rewrite ComputeProjectionMatrix_rows;
    cbv [coeff get4 of_rows v0 v1 v2 v3 fdiv fsub fadd arith];
    apply SFdiv_by_zero, SFsub_diag.
Qed.
End MoreIEEEProperties.

(** ** The model state, continued *)

(** X12.  The setters are replacements: of two writes to one attribute the
    last one wins, writes to the two attributes commute, and writing back
    what was read changes nothing. *)
Theorem Model_setters_replace :
  forall (A : Arith) (this : Model) (u v : Vector3f),
    SetPosition (SetPosition this u) v = SetPosition this v /\
    SetOrientation (SetOrientation this u) v = SetOrientation this v /\
    SetPosition (SetOrientation this u) v = SetOrientation (SetPosition this v) u /\
    SetPosition this (GetPosition this) = this /\
    SetOrientation this (GetOrientation this) = this /\
    snd (mutable_position this) v = SetPosition this v /\
    snd (mutable_orientation this) v = SetOrientation this v.
Proof.
  intros A this u v. destruct this as [o p vs]. repeat split.
Qed.

(** ** Runs of [main], continued *)

Section MoreDriverFacts.
Context {A : Arith} {C : Cmath A}.

Ltac open_world w :=
  destruct w as [init win glew [width height] [[created error_info_log] sp]
                 vao vbo location time events];
  cbn [glfwInit_returns glfwCreateWindow_returns glewInit_returns
       glfwGetFramebufferSize_returns Create_returns glGenVertexArrays_returns
       glGenBuffers_returns fst snd] in *.

Ltac run_main :=
  cbv [main SetWindowHints ConfigureViewPort SetVertexArrayObject
       SetVertexBufferObject bind call ret initial
       glfwInit_returns glfwCreateWindow_returns glewInit_returns
       glfwGetFramebufferSize_returns Create_returns glGenVertexArrays_returns
       glGenBuffers_returns negb trace close_flag frames fst snd];
  cbn [app].

(** A start-up that fails leaves the trace [failure_calls]. *)
Lemma main_failure (w : World) (fuel : nat) :
  init_failure w ->
  main w fuel initial =
  (Some (-1), {| trace := failure_calls w; close_flag := false; frames := 0 |}).
Proof.
  intros Hf. unfold failure_calls.
  destruct (glfwInit_returns w) eqn:Hi.
  2:{ open_world w. subst init. run_main. reflexivity. }
  destruct (glfwCreateWindow_returns w) as [window |] eqn:Hw.
  2:{ open_world w. subst init win. run_main. reflexivity. }
  destruct (Z.eq_dec (glewInit_returns w) GLEW_OK) as [Hg | Hg].
  2:{ open_world w. subst init win. apply Z.eqb_neq in Hg.
      unfold main.
      cbn [glfwInit_returns glfwCreateWindow_returns glewInit_returns].
      rewrite Hg. run_main. reflexivity. }
  assert (Hp : shader_program_id (snd (Create_returns w)) = 0).
  { destruct Hf as [H | [H | [H | H]]]; congruence. }
  open_world w. subst init win glew. apply Z.eqb_eq in Hp.
  unfold main.
  cbn [glfwInit_returns glfwCreateWindow_returns glewInit_returns
       glfwGetFramebufferSize_returns Create_returns].
  rewrite Hp. change (GLEW_OK =? GLEW_OK) with true.
  destruct created; run_main; reflexivity.
Qed.

(** *** Counting frames *)

Lemma draw_count_app (t u : list Call) :
  draw_count (t ++ u) = (draw_count t + draw_count u)%nat.
Proof. unfold draw_count. rewrite filter_app, length_app. reflexivity. Qed.

Lemma draw_count_deliver (window : GLFWwindow) (events : list InputEvent) :
  draw_count (deliver_calls window events) = 0%nat.
Proof.
  induction events as [| e rest IH]; [reflexivity|].
  cbn [deliver_calls]. rewrite draw_count_app, IH.
  destruct e; [destruct (closes _) |]; reflexivity.
Qed.

Lemma draw_count_frame (w : World) sp vao proj window k :
  draw_count (frame_calls w sp vao proj window k) = 1%nat.
Proof.
  unfold frame_calls.
  change (draw_count ([glfwGetTime] ++
    RenderScene_calls w sp vao proj (angle_at w k) ++
    [glfwSwapBuffers window; glfwPollEvents] ++
    deliver_calls window (glfwPollEvents_delivers w k)) = 1%nat).
  rewrite !draw_count_app, draw_count_deliver. reflexivity.
Qed.

Lemma draw_count_startup (w : World) window :
  draw_count (startup_calls w window) = 0%nat.
Proof.
  unfold startup_calls. rewrite !draw_count_app.
  destruct (fst (fst (Create_returns w))); reflexivity.
Qed.

(** Without a closing event the loop uses up its fuel, one frame a test. *)
Lemma loop_open (w : World) sp vao proj window (fuel : nat) : forall s : State,
  close_flag s = false ->
  (forall j, (frames s <= j)%nat -> close_requested w j = false) ->
  let r := loop w fuel sp vao proj window s in
  fst r = false /\ frames (snd r) = (frames s + fuel)%nat /\
  draw_count (trace (snd r)) = (draw_count (trace s) + fuel)%nat.
Proof.
  induction fuel as [| fuel IH]; intros s Hc Hno; cbv zeta.
  - cbn [loop]. unfold ret. cbn [fst snd]. repeat split; lia.
  - rewrite loop_step. cbv zeta. rewrite Hc.
    unfold with_trace. cbn [trace close_flag frames].
    match goal with |- context [loop w fuel sp vao proj window ?s1] =>
      specialize (IH s1) end.
    cbv zeta in IH. cbn [trace close_flag frames] in IH.
    destruct IH as [I1 [I2 I3]].
    + apply Hno. lia.
    + intros j Hj. apply Hno. lia.
    + rewrite I1, I2, I3. rewrite !draw_count_app, draw_count_frame.
      repeat split; cbn; lia.
Qed.

(** With the first closing event in frame [k] the loop is left at the test
    after this frame. *)
Lemma loop_closing (w : World) sp vao proj window (k n : nat) :
  forall (fuel : nat) (s : State),
  close_flag s = false ->
  (frames s + n)%nat = k ->
  (forall j, (frames s <= j < k)%nat -> close_requested w j = false) ->
  close_requested w k = true ->
  (n + 1 < fuel)%nat ->
  let r := loop w fuel sp vao proj window s in
  fst r = true /\ frames (snd r) = S k /\
  draw_count (trace (snd r)) = (draw_count (trace s) + S n)%nat.
Proof.
  induction n as [| n IH]; intros fuel s Hc Hk Hno Hyes Hfuel; cbv zeta.
  - destruct fuel as [| [| fuel]]; try lia.
    rewrite loop_step. cbv zeta. rewrite Hc.
    rewrite loop_step. cbv zeta. unfold with_trace.
    cbn [trace close_flag frames].
    replace (frames s) with k by lia. rewrite Hyes. cbn [fst snd frames trace].
    rewrite !draw_count_app, draw_count_frame.
    repeat split; cbn; lia.
  - destruct fuel as [| fuel]; try lia.
    rewrite loop_step. cbv zeta. rewrite Hc.
    unfold with_trace. cbn [trace close_flag frames].
    match goal with |- context [loop w fuel sp vao proj window ?s1] =>
      specialize (IH fuel s1) end.
    cbv zeta in IH. cbn [trace close_flag frames] in IH.
    destruct IH as [I1 [I2 I3]].
    + apply Hno. lia.
    + lia.
    + intros j Hj. apply Hno. lia.
    + exact Hyes.
    + lia.
    + rewrite I1, I2, I3. rewrite !draw_count_app, draw_count_frame.
      repeat split; cbn; lia.
Qed.
End MoreDriverFacts.

(** X13.  A run that started ends at the first test of the loop after the
    first closing event: when this event comes in frame k, [main] returns
    0 having run k + 1 frames and issued k + 1 draw calls. *)
Theorem main_stops_after_first_close :
  forall (A : Arith) (C : Cmath A) (w : World) (k fuel : nat),
    ~ init_failure w ->
    close_requested w k = true ->
    (forall j, (j < k)%nat -> close_requested w j = false) ->
    (S k < fuel)%nat ->
    fst (main w fuel initial) = Some 0 /\
    frames (snd (main w fuel initial)) = S k /\
    draw_count (trace (snd (main w fuel initial))) = S k.
Proof.
  intros A C w k fuel Hn Hyes Hno Hfuel.
  destruct (main_spec w fuel) as [[Hf _] | [_ [window [Hw E]]]]; [contradiction|].
  cbv zeta in E. rewrite E.
  pose proof (loop_closing w (snd (Create_returns w))
                (glGenVertexArrays_returns w) projection_matrix window k k fuel
                (started w window)) as L.
  cbv zeta in L. destruct L as [L1 [L2 L3]];
    [reflexivity | reflexivity | | exact Hyes | lia |].
  { intros j Hj. apply Hno. lia. }
  rewrite L1. unfold with_trace. cbn [fst snd frames trace].
  rewrite draw_count_app, L3. cbn [started trace].
  rewrite draw_count_startup.
  split; [reflexivity | split; [exact L2 | cbn; lia]].
Qed.

(** X14.  A run that started and never receives a closing event never
    returns: whatever the number of tests allowed, the loop is still
    running, having drawn one frame for each test. *)
Theorem main_runs_until_closed :
  forall (A : Arith) (C : Cmath A) (w : World) (fuel : nat),
    ~ init_failure w ->
    (forall k, close_requested w k = false) ->
    fst (main w fuel initial) = None /\
    frames (snd (main w fuel initial)) = fuel /\
    draw_count (trace (snd (main w fuel initial))) = fuel.
Proof.
  intros A C w fuel Hn Hno.
  destruct (main_spec w fuel) as [[Hf _] | [_ [window [Hw E]]]]; [contradiction|].
  cbv zeta in E. rewrite E.
  pose proof (loop_open w (snd (Create_returns w))
                (glGenVertexArrays_returns w) projection_matrix window fuel
                (started w window)) as L.
  cbv zeta in L. destruct L as [L1 [L2 L3]]; [reflexivity | |].
  { intros j _. apply Hno. }
  rewrite L1. cbn [fst snd]. rewrite L2, L3. cbn [started trace frames].
  rewrite draw_count_startup.
  split; [reflexivity | split; [reflexivity | lia]].
Qed.

(** ** Bindings, order and uploads *)

Section TraceFacts.
Context {A : Arith} {C : Cmath A}.

Lemma bindings_after_app (b : Bindings) (t u : list Call) :
  bindings_after b (t ++ u) = bindings_after (bindings_after b t) u.
Proof. unfold bindings_after. apply fold_left_app. Qed.

Lemma disciplined_app (vao vbo : GLuint) (t u : list Call) : forall b,
  disciplined vao vbo b (t ++ u) =
  disciplined vao vbo b t && disciplined vao vbo (bindings_after b t) u.
Proof.
  induction t as [| c t IH]; intros b; [reflexivity|].
  cbn [app disciplined bindings_after fold_left]. rewrite IH.
  unfold bindings_after. rewrite andb_assoc. reflexivity.
Qed.

(** The callbacks do not bind and do not draw. *)
Lemma deliver_binds_nothing (vao vbo : GLuint) window events : forall b,
  disciplined vao vbo b (deliver_calls window events) = true /\
  bindings_after b (deliver_calls window events) = b.
Proof.
  induction events as [| e rest IH]; intros b; [split; reflexivity|].
  cbn [deliver_calls]. rewrite disciplined_app, bindings_after_app.
  destruct e; [destruct (closes _) |]; cbn [disciplined allowed bind_step
    bindings_after fold_left andb]; apply IH.
Qed.

(** A frame binds the vertex array of the program, draws, and unbinds. *)
Lemma frame_bindings (w : World) sp vbo proj window k :
  let vao := glGenVertexArrays_returns w in
  disciplined vao vbo unbound (frame_calls w sp vao proj window k) = true /\
  bindings_after unbound (frame_calls w sp vao proj window k) = unbound.
Proof.
  cbv zeta. unfold frame_calls.
  change (glfwGetTime :: RenderScene_calls w sp (glGenVertexArrays_returns w)
            proj (angle_at w k) ++
          [glfwSwapBuffers window; glfwPollEvents] ++
          deliver_calls window (glfwPollEvents_delivers w k))
    with ((glfwGetTime :: RenderScene_calls w sp (glGenVertexArrays_returns w)
             proj (angle_at w k) ++ [glfwSwapBuffers window; glfwPollEvents]) ++
          deliver_calls window (glfwPollEvents_delivers w k)).
  rewrite disciplined_app, bindings_after_app.
  assert (E : disciplined (glGenVertexArrays_returns w) vbo unbound
                (glfwGetTime :: RenderScene_calls w sp
                   (glGenVertexArrays_returns w) proj (angle_at w k) ++
                 [glfwSwapBuffers window; glfwPollEvents]) = true /\
              bindings_after unbound
                (glfwGetTime :: RenderScene_calls w sp
                   (glGenVertexArrays_returns w) proj (angle_at w k) ++
                 [glfwSwapBuffers window; glfwPollEvents]) = unbound).
  { unfold RenderScene_calls, unbound.
    cbn [app disciplined allowed bind_step bindings_after fold_left
         vertex_array array_buffer].
    rewrite Z.eqb_refl. split; reflexivity. }
  destruct E as [E1 E2]. rewrite E1, E2. cbn [andb].
  apply deliver_binds_nothing.
Qed.

Lemma loop_bindings (w : World) sp vbo window (fuel : nat) : forall s : State,
  let vao := glGenVertexArrays_returns w in
  exists t,
    trace (snd (loop w fuel sp vao projection_matrix window s)) = trace s ++ t /\
    disciplined vao vbo unbound t = true /\
    bindings_after unbound t = unbound.
Proof.
  cbv zeta. induction fuel as [| fuel IH]; intros s.
  - exists []. cbn [loop]. unfold ret. cbn [snd]. rewrite app_nil_r.
    repeat split.
  - rewrite loop_step. cbv zeta. unfold with_trace.
    cbn [trace close_flag frames].
    destruct (close_flag s).
    + exists [glfwWindowShouldClose window]. cbn [snd trace]. repeat split.
    + match goal with |- context [loop w fuel sp _ _ window ?s1] =>
        destruct (IH s1) as [t [Ht [Hd Hb]]] end.
      exists ([glfwWindowShouldClose window] ++
              frame_calls w sp (glGenVertexArrays_returns w) projection_matrix
                window (frames s) ++ t).
      rewrite Ht. cbn [trace].
      destruct (frame_bindings w sp vbo projection_matrix window (frames s))
        as [F1 F2].
      split; [rewrite <- !app_assoc; reflexivity|].
      rewrite !disciplined_app, !bindings_after_app.
      change (bindings_after unbound [glfwWindowShouldClose window])
        with unbound.
      rewrite F1, F2, Hd, Hb. split; reflexivity.
Qed.

(** The start-up leaves nothing bound and sets the attribute up with
    both objects of the program bound. *)
Lemma startup_bindings (w : World) window :
  let vao := glGenVertexArrays_returns w in
  let vbo := glGenBuffers_returns w in
  disciplined vao vbo unbound (startup_calls w window) = true /\
  bindings_after unbound (startup_calls w window) = unbound.
Proof.
  cbv zeta. unfold startup_calls.
  rewrite !disciplined_app, !bindings_after_app.
  destruct (fst (fst (Create_returns w)));
    unfold unbound;
    cbn [app disciplined allowed bind_step bindings_after fold_left
         vertex_array array_buffer andb];
    rewrite !Z.eqb_refl; split; reflexivity.
Qed.

Lemma teardown_bindings (w : World) window :
  let vao := glGenVertexArrays_returns w in
  let vbo := glGenBuffers_returns w in
  disciplined vao vbo unbound (teardown w window) = true /\
  bindings_after unbound (teardown w window) = unbound.
Proof.
  cbv zeta. unfold teardown, unbound.
  cbn [disciplined allowed bind_step bindings_after fold_left
       vertex_array array_buffer andb].
  split; [reflexivity|].
  destruct (0 =? glGenVertexArrays_returns w);
    cbn [vertex_array array_buffer];
    destruct (0 =? glGenBuffers_returns w); reflexivity.
Qed.

Lemma failure_bindings (w : World) vao vbo :
  disciplined vao vbo unbound (failure_calls w) = true /\
  bindings_after unbound (failure_calls w) = unbound.
Proof.
  unfold failure_calls.
  destruct (glfwInit_returns w); cbn [negb]; [| split; reflexivity].
  destruct (glfwCreateWindow_returns w); [| split; reflexivity].
  destruct (glewInit_returns w =? GLEW_OK); cbn [negb]; [| split; reflexivity].
  destruct (fst (fst (Create_returns w))); split; reflexivity.
Qed.
End TraceFacts.

(** X15.  In every run each draw call finds the vertex array of the
    program bound, the upload of the vertices finds its buffer bound, the
    attribute set-up finds both, and at the end of the trace, between the
    frames as after the teardown or a failed start-up, nothing is bound. *)
Theorem main_bindings :
  forall (A : Arith) (C : Cmath A) (w : World) (fuel : nat),
    let t := trace (snd (main w fuel initial)) in
    disciplined (glGenVertexArrays_returns w) (glGenBuffers_returns w)
      unbound t = true /\
    bindings_after unbound t = unbound.
Proof.
  intros A C w fuel. cbv zeta.
  destruct (main_spec w fuel) as [[Hf _] | [_ [window [Hw E]]]].
  - rewrite (main_failure w fuel Hf). cbn [snd trace]. apply failure_bindings.
  - cbv zeta in E. rewrite E.
    destruct (loop_bindings w (snd (Create_returns w)) (glGenBuffers_returns w)
                window fuel (started w window)) as [t [Ht [Hd Hb]]].
    cbn [started trace] in Ht.
    destruct (startup_bindings w window) as [S1 S2].
    destruct (teardown_bindings w window) as [T1 T2].
    destruct (fst (loop w fuel _ _ _ window _)); unfold with_trace;
      cbn [snd trace]; rewrite Ht;
      rewrite ?disciplined_app, ?bindings_after_app, S1, S2, Hd, Hb, ?T1, ?T2;
      split; reflexivity.
Qed.

Section OrderFacts.
Context {A : Arith} {C : Cmath A}.

Lemma Forall_uploads_deliver (w : World) window events :
  Forall (uploads_known w) (deliver_calls window events).
Proof.
  induction events as [| e rest IH]; [constructor|].
  cbn [deliver_calls]. apply Forall_app. split; [| exact IH].
  destruct e; [destruct (closes _) |]; repeat constructor.
Qed.

Lemma Forall_uploads_frame (w : World) sp vao window k :
  Forall (uploads_known w) (frame_calls w sp vao projection_matrix window k).
Proof.
  unfold frame_calls, RenderScene_calls.
  apply Forall_cons; [exact I|].
  apply Forall_app. split; [| apply Forall_app; split].
  - repeat (apply Forall_cons;
      [first [ exact I
             | split; [reflexivity | split; [reflexivity|]];
               first [ left; reflexivity
                     | right; left; reflexivity
                     | right; right; exists k; reflexivity ] ] |]).
    apply Forall_nil.
  - repeat constructor.
  - apply Forall_uploads_deliver.
Qed.

Lemma loop_uploads (w : World) sp vao window (fuel : nat) : forall s : State,
  exists t,
    trace (snd (loop w fuel sp vao projection_matrix window s)) = trace s ++ t /\
    Forall (uploads_known w) t.
Proof.
  induction fuel as [| fuel IH]; intros s.
  - exists []. cbn [loop]. unfold ret. cbn [snd]. rewrite app_nil_r.
    split; [reflexivity | constructor].
  - rewrite loop_step. cbv zeta. unfold with_trace.
    cbn [trace close_flag frames].
    destruct (close_flag s).
    + exists [glfwWindowShouldClose window]. cbn [snd trace].
      split; [reflexivity | repeat constructor].
    + match goal with |- context [loop w fuel sp vao _ window ?s1] =>
        destruct (IH s1) as [t [Ht Hu]] end.
      exists ([glfwWindowShouldClose window] ++
              frame_calls w sp vao projection_matrix window (frames s) ++ t).
      rewrite Ht. cbn [trace].
      split; [rewrite <- !app_assoc; reflexivity|].
      apply Forall_app. split; [repeat constructor|].
      apply Forall_app. split; [apply Forall_uploads_frame | exact Hu].
Qed.

Lemma Forall_uploads_startup (w : World) window :
  Forall (uploads_known w) (startup_calls w window).
Proof.
  unfold startup_calls. apply Forall_app. split; [repeat constructor|].
  apply Forall_app. split; [| repeat constructor].
  destruct (fst (fst (Create_returns w))); repeat constructor.
Qed.

Lemma Forall_uploads_failure (w : World) :
  Forall (uploads_known w) (failure_calls w).
Proof.
  unfold failure_calls.
  destruct (glfwInit_returns w); cbn [negb]; [| repeat constructor].
  apply Forall_app. split; [repeat constructor|].
  destruct (glfwCreateWindow_returns w); [| repeat constructor].
  apply Forall_app. split; [repeat constructor|].
  destruct (glewInit_returns w =? GLEW_OK); cbn [negb]; [| repeat constructor].
  apply Forall_app. split; [repeat constructor|].
  apply Forall_app. split; [| repeat constructor].
  destruct (fst (fst (Create_returns w))); repeat constructor.
Qed.

Lemma before_glewInit_startup (w : World) window (rest : list Call) :
  existsb is_gl (before_glewInit (startup_calls w window ++ rest)) = false.
Proof. reflexivity. Qed.

Lemma before_glewInit_failure (w : World) :
  existsb is_gl (before_glewInit (failure_calls w)) = false.
Proof.
  unfold failure_calls.
  destruct (glfwInit_returns w); cbn [negb]; [| reflexivity].
  destruct (glfwCreateWindow_returns w); reflexivity.
Qed.
End OrderFacts.

(** X16.  Every matrix that a run uploads is uploaded as one matrix, not
    transposed, and is the identity, the model matrix of a frame, or the
    one projection matrix computed before the loop: the projection never
    changes between frames. *)
Theorem main_uploads :
  forall (A : Arith) (C : Cmath A) (w : World) (fuel : nat),
    Forall (uploads_known w) (trace (snd (main w fuel initial))).
Proof.
  intros A C w fuel.
  destruct (main_spec w fuel) as [[Hf _] | [_ [window [Hw E]]]].
  - rewrite (main_failure w fuel Hf). cbn [snd trace].
    apply Forall_uploads_failure.
  - cbv zeta in E. rewrite E.
    destruct (loop_uploads w (snd (Create_returns w))
                (glGenVertexArrays_returns w) window fuel (started w window))
      as [t [Ht Hu]].
    cbn [started trace] in Ht.
    assert (F : Forall (uploads_known w) (startup_calls w window ++ t))
      by (apply Forall_app; split; [apply Forall_uploads_startup | exact Hu]).
    destruct (fst (loop w fuel _ _ _ window _)); unfold with_trace;
      cbn [snd trace]; rewrite Ht; [| exact F].
    apply Forall_app. split; [exact F | repeat constructor].
Qed.

(** X17.  No run calls OpenGL before [glewInit]: up to and including that
    call the trace holds calls of GLFW and GLEW only. *)
Theorem no_OpenGL_before_glewInit :
  forall (A : Arith) (C : Cmath A) (w : World) (fuel : nat),
    existsb is_gl (before_glewInit (trace (snd (main w fuel initial)))) = false.
Proof.
  intros A C w fuel.
  destruct (main_spec w fuel) as [[Hf _] | [_ [window [Hw E]]]].
  - rewrite (main_failure w fuel Hf). cbn [snd trace].
    apply before_glewInit_failure.
  - cbv zeta in E. rewrite E.
    destruct (loop_spec w (snd (Create_returns w)) (glGenVertexArrays_returns w)
                projection_matrix window fuel (started w window))
      as [t [Ht _]].
    cbn [started trace] in Ht.
    destruct (fst (loop w fuel _ _ _ window _)); unfold with_trace;
      cbn [snd trace]; rewrite Ht; rewrite <- ?app_assoc;
      apply before_glewInit_startup.
Qed.

(** X18.  What a failed start-up releases: nothing but [glfwInit] was
    called when GLFW does not start; [glfwTerminate] is the last call when
    the window or GLEW fails; and when the shader program handle is zero
    [main] returns without [glfwDestroyWindow] and without
    [glfwTerminate]. *)
Theorem failed_startup_release :
  forall (A : Arith) (C : Cmath A) (w : World) (fuel : nat),
    let t := trace (snd (main w fuel initial)) in
    (glfwInit_returns w = false -> t = [glfwInit]) /\
    (glfwInit_returns w = true ->
     glfwCreateWindow_returns w = None \/
     (glfwCreateWindow_returns w <> None /\ glewInit_returns w <> GLEW_OK) ->
     exists before, t = before ++ [glfwTerminate]) /\
    (glfwInit_returns w = true -> glfwCreateWindow_returns w <> None ->
     glewInit_returns w = GLEW_OK ->
     shader_program_id (snd (Create_returns w)) = 0 ->
     existsb releases t = false).
Proof.
  intros A C w fuel. cbv zeta. split; [| split].
  - intros Hi. rewrite (main_failure w fuel) by (left; exact Hi).
    cbn [snd trace]. unfold failure_calls. rewrite Hi. reflexivity.
  - intros Hi [Hw | [Hw Hg]].
    + rewrite (main_failure w fuel) by (right; left; exact Hw).
      cbn [snd trace]. unfold failure_calls. rewrite Hi, Hw. cbn [negb].
      eexists. reflexivity.
    + rewrite (main_failure w fuel) by (right; right; left; exact Hg).
      cbn [snd trace]. unfold failure_calls. rewrite Hi. cbn [negb].
      destruct (glfwCreateWindow_returns w) as [window |]; [| contradiction].
      apply Z.eqb_neq in Hg. rewrite Hg. cbn [negb].
      eexists. rewrite !app_assoc.
      change [cerr ("Glew did not initialize properly!" ++ newline); glfwTerminate]
        with ([cerr ("Glew did not initialize properly!" ++ newline)]
              ++ [glfwTerminate]).
      rewrite app_assoc. reflexivity.
  - intros Hi Hw Hg Hp.
    rewrite (main_failure w fuel) by (right; right; right; exact Hp).
    cbn [snd trace]. unfold failure_calls. rewrite Hi, Hg. cbn [negb].
    destruct (glfwCreateWindow_returns w) as [window |]; [| contradiction].
    change (GLEW_OK =? GLEW_OK) with true. cbn [negb].
    destruct (fst (fst (Create_returns w))); reflexivity.
Qed.

(** X19.  Input that is neither the Escape key going down nor a request to
    close the window has no effect: the callbacks call nothing and the
    state is as before.  In general polling raises the close flag when an
    event of the frame closes, and never lowers it. *)
Theorem input_without_effect :
  forall (A : Arith) (C : Cmath A) (window : GLFWwindow)
         (events : list InputEvent) (s : State),
    close_flag (snd (deliver window events s)) =
      close_flag s || existsb closes events /\
    (existsb closes events = false -> snd (deliver window events s) = s).
Proof.
  intros A C window events s. rewrite deliver_spec. cbn [snd close_flag].
  split; [reflexivity|].
  intros H. rewrite H, orb_false_r.
  assert (E : deliver_calls window events = []).
  { induction events as [| e rest IH]; [reflexivity|].
    cbn [existsb] in H. apply orb_false_elim in H. destruct H as [He Hr].
    cbn [deliver_calls]. rewrite (IH Hr).
    destruct e; [rewrite He |]; reflexivity. }
  rewrite E, app_nil_r. destruct s; reflexivity.
Qed.

(** ** The further properties at concrete inputs *)

Section MoreWitnesses.
Import Exact.

Lemma world_escape_starts : ~ init_failure world_escape.
Proof.
  unfold init_failure.
  cbn [world_escape glfwInit_returns glfwCreateWindow_returns glewInit_returns
       Create_returns snd shader_program_id].
  intros [H | [H | [H | H]]]; try discriminate H. apply H. reflexivity.
Qed.

Lemma world_idle_starts : ~ init_failure world_idle.
Proof.
  unfold init_failure.
  cbn [world_idle glfwInit_returns glfwCreateWindow_returns glewInit_returns
       Create_returns snd shader_program_id].
  intros [H | [H | [H | H]]]; try discriminate H. apply H. reflexivity.
Qed.

(** Escape in the first frame: one frame, one draw call. *)
Lemma main_stops_after_first_close_witness :
  fst (main world_escape 2 initial) = Some 0 /\
  frames (snd (main world_escape 2 initial)) = 1%nat /\
  draw_count (trace (snd (main world_escape 2 initial))) = 1%nat.
Proof.
  apply (main_stops_after_first_close arith cmath world_escape 0 2).
  - exact world_escape_starts.
  - reflexivity.
  - intros j Hj. inversion Hj.
  - apply le_n.
Defined.

(** No input: after five tests five frames are drawn and the loop runs. *)
Lemma main_runs_until_closed_witness :
  fst (main world_idle 5 initial) = None /\
  frames (snd (main world_idle 5 initial)) = 5%nat /\
  draw_count (trace (snd (main world_idle 5 initial))) = 5%nat.
Proof.
  apply (main_runs_until_closed arith cmath world_idle 5).
  - exact world_idle_starts.
  - intros k. reflexivity.
Defined.

(** GLFW does not start: the trace is the one call. *)
Lemma failed_startup_release_witness :
  trace (snd (main world_no_glfw 3 initial)) = [glfwInit].
Proof.
  apply (proj1 (failed_startup_release arith cmath world_no_glfw 3)).
  reflexivity.
Defined.

(** The release of the Escape key and a press of another key. *)
Lemma input_without_effect_witness :
  snd (deliver 1 [KeyEvent GLFW_KEY_ESCAPE 9 0 0; KeyEvent 65 38 GLFW_PRESS 0]
         initial) = initial.
Proof.
  apply (proj2 (input_without_effect arith cmath 1
                  [KeyEvent GLFW_KEY_ESCAPE 9 0 0; KeyEvent 65 38 GLFW_PRESS 0]
                  initial)).
  reflexivity.
Defined.
End MoreWitnesses.

Section MoreExactWitnesses.
Import Exact.
Local Open Scope R_scope.

(** The frustum of [main] with near = 1, the frame of angle 0 and the
    vertex (500, -500, 0). *)
Lemma vertex_shader_w_witness :
  v3 (vertex_shader (frame_model (Some 0)) Matrix4f_Identity
        (ComputeProjectionMatrix (Some (-320)) (Some 320) (Some 240)
           (Some (-240)) (Some 1) (Some 10))
        (mkV3 (Some 500) (Some (-500)) (Some 0))) =
  Some (1 - Rtrigo_def.sin (0.5 * 0) - 0) /\
  0 <= 1 - Rtrigo_def.sin (0.5 * 0) <= 2.
Proof.
  apply (vertex_shader_w (-320) 320 240 (-240) 1 10 0 500 (-500) 0); lra.
Defined.
End MoreExactWitnesses.

(** * The closed forms on the values of the program *)

(** The closed forms above are those of exact arithmetic.  On binary32
    and binary64 every operation rounds and may overflow, and the
    identities hold up to that only. *)

Section BinaryProperties.
Import IEEE.
Import Libm.

(** The sine and the cosine of 1 at binary32, 0.84147096 and 0.54030228,
    and of an infinity. *)
Lemma sinf_cosf_values :
  sinf (flit 1) = S754_finite false 14117540 (-24) /\
  cosf (flit 1) = S754_finite false 9064768 (-24) /\
  sinf (fneg (flit 1)) = S754_finite true 14117540 (-24) /\
  cosf (fneg (flit 1)) = S754_finite false 9064768 (-24) /\
  sinf (S754_infinity false) = S754_nan /\
  cosf (S754_infinity false) = S754_nan.
Proof. vm_compute. repeat split. Qed.

(** C1 fails as stated on the values of the program: with left = -1,
    right = 1, top = 1, bottom = -1, near = 2^127 and far = 1.5 * 2^127
    the six arguments are binary32 numbers, near > 0, far > near,
    left <> right and top <> bottom; the number
    -(far + near) / (far - near) is -5, a binary32 number, and the
    coefficient (2,2) that the code returns is minus infinity, because
    the sum far + near is above the largest binary32 number. *)
Lemma projection_closed_form_overflow :
  let f := int_to_float in
  let l := f (-1) in
  let r := f 1 in
  let t := f 1 in
  let b := f (-1) in
  let near := S754_finite false 8388608 104 in
  let far := S754_finite false 12582912 104 in
  let m := ComputeProjectionMatrix l r t b near far in
  forallb (valid_binary prec32 emax32) [l; r; t; b; near; far] = true /\
  forallb finite [l; r; t; b; near; far] = true /\
  (SFltb (f 0) near = true /\ SFltb near far = true /\
   SFeqb l r = false /\ SFeqb t b = false) /\
  (is_value near (2 ^ 127) = true /\ is_value far (3 * 2 ^ 126) = true /\
   (- (3 * 2 ^ 126 + 2 ^ 127) / (3 * 2 ^ 126 - 2 ^ 127) == - (5))%Q /\
   is_value (f (-5)) (- (5)) = true) /\
  coeff m I2 I2 = S754_infinity true /\
  coeff m I2 I2 <> f (-5) /\
  within FLT_EPSILON (coeff m I2 I2) (f (-5)) = false.
Proof.
  vm_compute.
  repeat split; try reflexivity; intros H; discriminate H.
Qed.



(** The second half of C9 holds on the values of the program as well: for
    the axis (2, 0, 0) and the angle 1 the block has 2.379 at (0,0), and
    the product with its transpose has 5.66 there, more than 4 away from
    the identity's 1. *)
Lemma rotation_axis_not_normalized :
  let r := block33 (ComputeRotation (mkV3 (flit 2) (flit 0) (flit 0)) (flit 1)) in
  coeff3 r X X = S754_finite false 9978640 (-22) /\
  coeff3 (mul3 (transpose3 r) r) X X = S754_finite false 11870057 (-21) /\
  within (flit 4) (coeff3 (mul3 (transpose3 r) r) X X) (flit 1) = false.
Proof. vm_compute. repeat split. Qed.

(** The field-of-view form at 90 degrees, aspect ratio 1, near = 1 and
    far = 2: the source's 3.1416f is above pi, so the tangent of the half
    angle is above 1, and the coefficients (0,0) and (1,1) are
    0.99999642, not 1. *)
Lemma fov_form_value :
  let m := ComputeProjectionMatrix_fov (flit 90) (flit 1) (flit 1) (flit 2) in
  coeff m I0 I0 = S754_finite false 16777156 (-24) /\
  coeff m I1 I1 = S754_finite false 16777156 (-24) /\
  SFltb (coeff m I1 I1) (flit 1) = true.
Proof. vm_compute. repeat split. Qed.
End BinaryProperties.
